(** * pg_fts.migrations: FTS trigger and index migration operations

    A shallow embedding of [src/pg_fts/migrations.py].  Python strings are
    [string]s, tuples and lists of strings are [list string]s, exceptions are
    the [Raise] results of an error monad, and the schema editor handed to an
    operation is threaded explicitly as the log of the SQL it was asked to
    execute. *)

From Stdlib Require Import String Ascii List Bool Arith Lia.
Import ListNotations.
Open Scope string_scope.

Set Implicit Arguments.

(** ** Exceptions and results *)

Inductive exn : Type :=
| LookupError          (* apps.get_model: no such model *)
| FieldDoesNotExist    (* _meta.get_field_by_name: no such field *)
| AttributeError
| AssertionError (msg : string)
| KeyError (key : string)
| IndexError
| TypeError
| ValueError
| Exception (class_name : string).   (* any other exception of the host *)

Inductive result (A : Type) : Type :=
| Ok (a : A)
| Raise (e : exn).
Arguments Ok {A} & a.
Arguments Raise {A} e.

Class Monad (M : Type -> Type) : Type :=
  { ret : forall {A}, A -> M A;
    bind : forall {A B}, M A -> (A -> M B) -> M B }.

Notation "x <- c ;; k" := (bind c (fun x => k))
  (at level 61, c at next level, right associativity).
Notation "c ;;; k" := (bind c (fun _ => k))
  (at level 61, right associativity).

#[export] Instance result_monad : Monad result :=
  { ret := fun A a => Ok a;
    bind := fun A B c k => match c with Ok a => k a | Raise e => Raise e end }.

(** [try: c except: h] with a bare [except] clause. *)
Definition try_except {A} (c : result A) (h : result A) : result A :=
  match c with
  | Ok a => Ok a
  | Raise _ => h
  end.

(** ** The two string-formatting operators the module uses *)

Module Py.

Definition is_digit (c : ascii) : bool :=
  let n := nat_of_ascii c in Nat.leb 48 n && Nat.leb n 57.

(** A replacement-field name made of digits only is a positional index. *)
Fixpoint index_of (key : string) (acc : nat) : option nat :=
  match key with
  | EmptyString => Some acc
  | String c key' =>
      if is_digit c
      then index_of key' (10 * acc + (nat_of_ascii c - 48))
      else None
  end.

Fixpoint assoc (key : string) (kwargs : list (string * string)) : option string :=
  match kwargs with
  | [] => None
  | (k, v) :: kwargs' => if String.eqb k key then Some v else assoc key kwargs'
  end.

Definition get_value (key : string) (args : list string)
           (kwargs : list (string * string)) : result string :=
  match key with
  | EmptyString => Raise ValueError
  | _ =>
      match index_of key 0 with
      | Some i =>
          match nth_error args i with
          | Some v => Ok v
          | None => Raise IndexError
          end
      | None =>
          match assoc key kwargs with
          | Some v => Ok v
          | None => Raise (KeyError key)
          end
      end
  end.

(** [template.format( *args, **kwargs)] for templates whose replacement
    fields are plain names or indices ([{model}], [{0}]); [{{] and [}}] are
    the escapes for a literal brace.  [field] is [Some key] while the
    characters of a replacement field are being read.  The substituted
    values are copied as they are: they are not scanned again. *)
Fixpoint format_from (field : option string) (template : string)
         (args : list string) (kwargs : list (string * string)) : result string :=
  match template with
  | EmptyString =>
      match field with
      | None => Ok EmptyString
      | Some _ => Raise ValueError
      end
  | String c rest =>
      match field with
      | Some key =>
          if Ascii.eqb c "}"
          then v <- get_value key args kwargs ;;
               s <- format_from None rest args kwargs ;;
               ret (v ++ s)
          else format_from (Some (key ++ String c EmptyString)) rest args kwargs
      | None =>
          if Ascii.eqb c "{" then
            match rest with
            | String c' rest' =>
                if Ascii.eqb c' "{"
                then s <- format_from None rest' args kwargs ;; ret (String "{" s)
                else format_from (Some EmptyString) rest args kwargs
            | EmptyString => Raise ValueError
            end
          else if Ascii.eqb c "}" then
            match rest with
            | String c' rest' =>
                if Ascii.eqb c' "}"
                then s <- format_from None rest' args kwargs ;; ret (String "}" s)
                else Raise ValueError
            | EmptyString => Raise ValueError
            end
          else s <- format_from None rest args kwargs ;; ret (String c s)
      end
  end.

Definition format (template : string) (args : list string)
           (kwargs : list (string * string)) : result string :=
  format_from None template args kwargs.

(** [template % args] for templates whose only conversion is [%s]. *)
Fixpoint percent (template : string) (args : list string) : result string :=
  match template with
  | EmptyString =>
      match args with
      | [] => Ok EmptyString
      | _ :: _ => Raise TypeError
      end
  | String c rest =>
      if Ascii.eqb c "%" then
        match rest with
        | String c' rest' =>
            if Ascii.eqb c' "s" then
              match args with
              | a :: args' => s <- percent rest' args' ;; ret (a ++ s)
              | [] => Raise TypeError
              end
            else if Ascii.eqb c' "%" then
              s <- percent rest' args ;; ret (String "%" s)
            else Raise ValueError
        | EmptyString => Raise ValueError
        end
      else s <- percent rest args ;; ret (String c s)
  end.

(** [sep.join(items)] *)
Definition join (sep : string) (items : list string) : string :=
  String.concat sep items.

End Py.

(** ** The host framework, as far as the module reads it *)

(** Modelled from the spec: [pg_fts.fields] is not among the sources.  A
    [TSVectorField] is represented by what this module reads of it: the
    attribute name and column of every field, its [dictionary] attribute and
    the (field, rank) pairs that [_get_fields_and_ranks()] yields, in order.
    [Field] stands for a field of any other class. *)
#[warnings="-register-all"]
Inductive Field : Type :=
| OtherField (name : string) (attname_column : string * string)
| TSVectorField (name : string) (attname_column : string * string)
                (dictionary : string)
                (fields_and_ranks : list (Field * string)).

Definition field_name (f : Field) : string :=
  match f with
  | OtherField n _ => n
  | TSVectorField n _ _ _ => n
  end.

Definition get_attname_column (f : Field) : string * string :=
  match f with
  | OtherField _ ac => ac
  | TSVectorField _ ac _ _ => ac
  end.

(** What [_meta.get_field_by_name] answers with: a field of the model, or
    the [RelatedObject] of a reverse relation, which is not a field and has
    no [get_attname_column]. *)
Inductive FieldObject : Type :=
| DirectField (f : Field)
| RelatedObject (related_query_name : string).

Coercion DirectField : Field >-> FieldObject.

(** [o.get_attname_column()] on whatever object the lookup returned. *)
Definition get_attname_column_of (o : FieldObject) : result (string * string) :=
  match o with
  | DirectField f => Ok (get_attname_column f)
  | RelatedObject _ => Raise AttributeError
  end.

(** [isinstance(o, TSVectorField)] *)
Definition isinstance_TSVectorField (o : FieldObject) : bool :=
  match o with
  | DirectField (TSVectorField _ _ _ _) => true
  | DirectField (OtherField _ _) => false
  | RelatedObject _ => false
  end.

(** The keys under which [_meta]'s name map holds an object: a field under
    its name and its attname, a reverse relation under its query name. *)
Definition name_map_keys (o : FieldObject) : list string :=
  match o with
  | DirectField f => [ field_name f; fst (get_attname_column f) ]
  | RelatedObject related_query_name => [ related_query_name ]
  end.

(** A model class: [_meta.db_table] and the objects of [_meta]'s name map, in
    the order the map is filled (reverse relations, then the fields). *)
Record Model : Type :=
  { db_table : string;
    meta_fields : list FieldObject }.

(** [model._meta.get_field_by_name(name)[0]]: the name map is a dictionary,
    so of two objects with a common key the one entered last is found. *)
Definition get_field_by_name (model : Model) (name : string) : result FieldObject :=
  match find (fun o => existsb (String.eqb name) (name_map_keys o))
             (rev (meta_fields model)) with
  | Some o => Ok o
  | None => Raise FieldDoesNotExist
  end.

(** A project state, as [state.render().get_model] answers from it: the
    model class, or the exception that [render()] or the registry raises
    ([LookupError] for a model that is not there). *)
Record ProjectState : Type :=
  { render_get_model : string -> string -> result Model }.

(** [state.render().get_model(app_label, name)] *)
Definition get_model (state : ProjectState) (app_label name : string) : result Model :=
  render_get_model state app_label name.

(** The schema editor is a recording one: it keeps the SQL statements passed
    to [execute], oldest first.  What the caller's editor does with a
    statement, failing included, is outside this module. *)
Record SchemaEditor : Type :=
  { executed : list string }.

(** Code that runs against a schema editor and may raise. *)
Definition action (A : Type) : Type := SchemaEditor -> SchemaEditor * result A.

#[export] Instance action_monad : Monad action :=
  { ret := fun A a => fun ed => (ed, Ok a);
    bind := fun A B c k => fun ed =>
              match c ed with
              | (ed', Ok a) => k a ed'
              | (ed', Raise e) => (ed', Raise e)
              end }.

Definition lift {A} (r : result A) : action A := fun ed => (ed, r).

(** [schema_editor.execute(sql)] *)
Definition execute (sql : string) : action unit :=
  fun ed => ({| executed := (executed ed ++ [sql])%list |}, Ok tt).

(** ** [__all__] *)

(** Adjacent string literals are one literal: the second entry has no comma
    after it in the source. *)
Definition __all__ : list string :=
  [ "CreateFTSIndexOperation";
    "CreateFTSTriggerOperation" ++
    "DeleteFTSIndexOperation";
    "DeleteFTSTriggerOperation" ].

(** The classes the module defines. *)
Definition defined_classes : list string :=
  [ "PgFtsSQL"; "CreateFTSTriggerOperation"; "DeleteFTSTriggerOperation";
    "CreateFTSIndexOperation"; "DeleteFTSIndexOperation" ].

(** ** [class PgFtsSQL] *)

Module PgFtsSQL.

Definition sql_delete_trigger : string :=
  "DROP TRIGGER {model}_{fts_name}_update ON {model};" ++
  "DROP FUNCTION {model}_{fts_name}_update()".

Definition sql_create_trigger : string := "
CREATE FUNCTION {model}_{fts_name}_update() RETURNS TRIGGER AS $$
BEGIN
    IF TG_OP = 'INSERT' THEN
        new.{fts_name} = {vectors};
    END IF;
    IF TG_OP = 'UPDATE' THEN
        IF {fts_fields} THEN
            new.{fts_name} = {vectors};
        END IF;
    END IF;
RETURN NEW;
END;
$$ LANGUAGE 'plpgsql';
CREATE TRIGGER {model}_{fts_name}_update BEFORE INSERT OR UPDATE ON {model}
FOR EACH ROW EXECUTE PROCEDURE {model}_{fts_name}_update()".

Definition sql_create_index : string :=
  "CREATE INDEX {model}_{fts_name} ON {model} " ++
  "USING {fts_index}({fts_name})".

Definition sql_delete_index : string := "DROP INDEX {model}_{fts_name}".

Definition delete_trigger (model : Model) (field : FieldObject) : result string :=
  attname_column <- get_attname_column_of field ;;
  Py.format sql_delete_trigger []
    [ ("model", db_table model);
      ("fts_name", snd attname_column) ].

Definition _get_vector_for_field (field : Field) (weight dictionary : string)
  : result string :=
  Py.percent "setweight(to_tsvector(%s, COALESCE(NEW.%s, '')), '%s')"
    [ dictionary; snd (get_attname_column field); weight ].

(** The [try] block: the dictionary expression and the list [fields] after
    it; the [except] clause runs from the initial, empty [fields]. *)
Definition dictionary_and_fields (model : Model) (vector_dictionary : string)
  : result (string * list string) :=
  try_except
    (dict_field <- get_field_by_name model vector_dictionary ;;
     attname_column <- get_attname_column_of dict_field ;;
     dictionary <- Py.percent "NEW.%s::regconfig"
                     [ snd attname_column ] ;;
     cond <- Py.format "NEW.{0} <> OLD.{0}" [ vector_dictionary ] [] ;;
     ret (dictionary, ([] ++ [cond])%list))
    (dictionary <- Py.percent "'%s'" [ vector_dictionary ] ;;
     ret (dictionary, [])).

(** The [for field, rank in ...] loop over the lists [fields], [vectors]. *)
Fixpoint collect (dictionary : string) (pairs : list (Field * string))
         (fields vectors : list string) : result (list string * list string) :=
  match pairs with
  | [] => Ok (fields, vectors)
  | (field, rank) :: pairs' =>
      cond <- Py.format "NEW.{0} <> OLD.{0}"
                [ snd (get_attname_column field) ] [] ;;
      vector <- _get_vector_for_field field rank dictionary ;;
      collect dictionary pairs' (fields ++ [cond])%list (vectors ++ [vector])%list
  end.

Definition create_fts_trigger (model : Model) (vector_field : FieldObject)
  : result string :=
  match vector_field with
  | DirectField (TSVectorField _ attname_column vector_dictionary fields_and_ranks) =>
      df <- dictionary_and_fields model vector_dictionary ;;
      fv <- collect (fst df) fields_and_ranks (snd df) [] ;;
      Py.format sql_create_trigger []
        [ ("model", db_table model);
          ("fts_name", snd attname_column);
          ("fts_fields", Py.join " OR " (fst fv));
          ("vectors", Py.join " || " (snd fv)) ]
  | DirectField (OtherField _ _) | RelatedObject _ =>
      (* not isinstance(vector_field, TSVectorField) *)
      Raise AttributeError
  end.

Definition create_index (model : Model) (vector_field : FieldObject)
           (index : string) : result string :=
  attname_column <- get_attname_column_of vector_field ;;
  Py.format sql_create_index []
    [ ("model", db_table model);
      ("fts_index", index);
      ("fts_name", snd attname_column) ].

Definition delete_index (model : Model) (vector_field : FieldObject)
  : result string :=
  attname_column <- get_attname_column_of vector_field ;;
  Py.format sql_delete_index []
    [ ("model", db_table model);
      ("fts_name", snd attname_column) ].

End PgFtsSQL.

(** ** The migration operations *)

(** The part of Django's [Operation] interface the four classes override.
    [state_forwards] returns the project state as the call leaves it. *)
Class Operation (Op : Type) : Type :=
  { reduces_to_sql : bool;
    reversible : bool;
    state_forwards : Op -> string -> ProjectState -> ProjectState;
    database_forwards :
      Op -> string -> SchemaEditor -> ProjectState -> ProjectState ->
      SchemaEditor * result unit;
    database_backwards :
      Op -> string -> SchemaEditor -> ProjectState -> ProjectState ->
      SchemaEditor * result unit;
    describe : Op -> result string }.

Module CreateFTSTriggerOperation.

Record t : Type := { name : string; fts_vector : string }.

Definition __init__ (name fts_vector : string) : result t :=
  Ok {| name := name; fts_vector := fts_vector |}.

Definition state_forwards (self : t) (app_label : string) (state : ProjectState)
  : ProjectState := state.

Definition database_forwards (self : t) (app_label : string)
           (schema_editor : SchemaEditor) (from_state to_state : ProjectState)
  : SchemaEditor * result unit :=
  (model <- lift (get_model from_state app_label (name self)) ;;
   vector_field <- lift (get_field_by_name model (fts_vector self)) ;;
   sql <- lift (PgFtsSQL.create_fts_trigger model vector_field) ;;
   execute sql) schema_editor.

Definition database_backwards (self : t) (app_label : string)
           (schema_editor : SchemaEditor) (from_state to_state : ProjectState)
  : SchemaEditor * result unit :=
  (model <- lift (get_model from_state app_label (name self)) ;;
   vector_field <- lift (get_field_by_name model (fts_vector self)) ;;
   sql <- lift (PgFtsSQL.delete_trigger model vector_field) ;;
   execute sql) schema_editor.

Definition describe (self : t) : result string :=
  Py.percent "Create trigger `%s` for model `%s`" [ fts_vector self; name self ].

End CreateFTSTriggerOperation.

Module DeleteFTSTriggerOperation.

Record t : Type := { name : string; fts_vector : string }.

Definition __init__ (name fts_vector : string) : result t :=
  Ok {| name := name; fts_vector := fts_vector |}.

Definition state_forwards (self : t) (app_label : string) (state : ProjectState)
  : ProjectState := state.

Definition database_forwards (self : t) (app_label : string)
           (schema_editor : SchemaEditor) (from_state to_state : ProjectState)
  : SchemaEditor * result unit :=
  (model <- lift (get_model from_state app_label (name self)) ;;
   vector_field <- lift (get_field_by_name model (fts_vector self)) ;;
   sql <- lift (PgFtsSQL.delete_trigger model vector_field) ;;
   execute sql) schema_editor.

Definition database_backwards (self : t) (app_label : string)
           (schema_editor : SchemaEditor) (from_state to_state : ProjectState)
  : SchemaEditor * result unit :=
  (model <- lift (get_model from_state app_label (name self)) ;;
   vector_field <- lift (get_field_by_name model (fts_vector self)) ;;
   sql <- lift (PgFtsSQL.create_fts_trigger model vector_field) ;;
   execute sql) schema_editor.

Definition describe (self : t) : result string :=
  Py.percent "Delete trigger `%s` for model `%s`" [ fts_vector self; name self ].

End DeleteFTSTriggerOperation.

(** [assert index in self.INDEXS, "Invalid index '%s'. Options %s " % (...)]:
    the message is built only when the test fails. *)
Definition assert_index (INDEXS : list string) (index : string) : result unit :=
  if existsb (String.eqb index) INDEXS
  then Ok tt
  else msg <- Py.percent "Invalid index '%s'. Options %s "
                [ index; Py.join ", " INDEXS ] ;;
       Raise (AssertionError msg).

(** [if not isinstance(vector_field, TSVectorField): raise AttributeError] *)
Definition require_TSVectorField (vector_field : FieldObject) : result unit :=
  if negb (isinstance_TSVectorField vector_field)
  then Raise AttributeError
  else Ok tt.

Module CreateFTSIndexOperation.

Definition INDEXS : list string := [ "gin"; "gist" ].

Record t : Type := { name : string; fts_vector : string; index : string }.

Definition __init__ (name fts_vector index : string) : result t :=
  assert_index INDEXS index ;;;
  ret {| name := name; fts_vector := fts_vector; index := index |}.

Definition state_forwards (self : t) (app_label : string) (state : ProjectState)
  : ProjectState := state.

Definition database_forwards (self : t) (app_label : string)
           (schema_editor : SchemaEditor) (from_state to_state : ProjectState)
  : SchemaEditor * result unit :=
  (model <- lift (get_model from_state app_label (name self)) ;;
   vector_field <- lift (get_field_by_name model (fts_vector self)) ;;
   lift (require_TSVectorField vector_field) ;;;
   sql <- lift (PgFtsSQL.create_index model vector_field (index self)) ;;
   execute sql) schema_editor.

Definition database_backwards (self : t) (app_label : string)
           (schema_editor : SchemaEditor) (from_state to_state : ProjectState)
  : SchemaEditor * result unit :=
  (model <- lift (get_model from_state app_label (name self)) ;;
   vector_field <- lift (get_field_by_name model (fts_vector self)) ;;
   sql <- lift (PgFtsSQL.delete_index model vector_field) ;;
   execute sql) schema_editor.

Definition describe (self : t) : result string :=
  Py.percent "Create %s index `%s` for model `%s`"
    [ index self; fts_vector self; name self ].

End CreateFTSIndexOperation.

Module DeleteFTSIndexOperation.

Definition INDEXS : list string := [ "gin"; "gist" ].

Record t : Type := { name : string; fts_vector : string; index : string }.

Definition __init__ (name fts_vector index : string) : result t :=
  assert_index INDEXS index ;;;
  ret {| name := name; fts_vector := fts_vector; index := index |}.

Definition state_forwards (self : t) (app_label : string) (state : ProjectState)
  : ProjectState := state.

Definition database_forwards (self : t) (app_label : string)
           (schema_editor : SchemaEditor) (from_state to_state : ProjectState)
  : SchemaEditor * result unit :=
  (model <- lift (get_model from_state app_label (name self)) ;;
   vector_field <- lift (get_field_by_name model (fts_vector self)) ;;
   sql <- lift (PgFtsSQL.delete_index model vector_field) ;;
   execute sql) schema_editor.

Definition database_backwards (self : t) (app_label : string)
           (schema_editor : SchemaEditor) (from_state to_state : ProjectState)
  : SchemaEditor * result unit :=
  (model <- lift (get_model from_state app_label (name self)) ;;
   vector_field <- lift (get_field_by_name model (fts_vector self)) ;;
   lift (require_TSVectorField vector_field) ;;;
   sql <- lift (PgFtsSQL.create_index model vector_field (index self)) ;;
   execute sql) schema_editor.

Definition describe (self : t) : result string :=
  Py.percent "Delete %s index `%s` for model `%s`"
    [ index self; fts_vector self; name self ].

End DeleteFTSIndexOperation.

#[export] Instance CreateFTSTrigger_Operation : Operation CreateFTSTriggerOperation.t :=
  { reduces_to_sql := true;
    reversible := true;
    state_forwards := CreateFTSTriggerOperation.state_forwards;
    database_forwards := CreateFTSTriggerOperation.database_forwards;
    database_backwards := CreateFTSTriggerOperation.database_backwards;
    describe := CreateFTSTriggerOperation.describe }.

#[export] Instance DeleteFTSTrigger_Operation : Operation DeleteFTSTriggerOperation.t :=
  { reduces_to_sql := true;
    reversible := true;
    state_forwards := DeleteFTSTriggerOperation.state_forwards;
    database_forwards := DeleteFTSTriggerOperation.database_forwards;
    database_backwards := DeleteFTSTriggerOperation.database_backwards;
    describe := DeleteFTSTriggerOperation.describe }.

#[export] Instance CreateFTSIndex_Operation : Operation CreateFTSIndexOperation.t :=
  { reduces_to_sql := true;
    reversible := true;
    state_forwards := CreateFTSIndexOperation.state_forwards;
    database_forwards := CreateFTSIndexOperation.database_forwards;
    database_backwards := CreateFTSIndexOperation.database_backwards;
    describe := CreateFTSIndexOperation.describe }.

#[export] Instance DeleteFTSIndex_Operation : Operation DeleteFTSIndexOperation.t :=
  { reduces_to_sql := true;
    reversible := true;
    state_forwards := DeleteFTSIndexOperation.state_forwards;
    database_forwards := DeleteFTSIndexOperation.database_forwards;
    database_backwards := DeleteFTSIndexOperation.database_backwards;
    describe := DeleteFTSIndexOperation.describe }.

(** Any of the four operations, and the two directions a migration runs. *)
Inductive AnyOperation : Type :=
| CreateFTSTrigger (op : CreateFTSTriggerOperation.t)
| DeleteFTSTrigger (op : DeleteFTSTriggerOperation.t)
| CreateFTSIndex (op : CreateFTSIndexOperation.t)
| DeleteFTSIndex (op : DeleteFTSIndexOperation.t).

Inductive direction : Type := Forwards | Backwards.

Definition run {Op} `{Operation Op} (d : direction)
  : Op -> string -> SchemaEditor -> ProjectState -> ProjectState ->
    SchemaEditor * result unit :=
  match d with
  | Forwards => database_forwards
  | Backwards => database_backwards
  end.

Definition migrate (d : direction) (op : AnyOperation) (app_label : string)
           (schema_editor : SchemaEditor) (from_state to_state : ProjectState)
  : SchemaEditor * result unit :=
  match op with
  | CreateFTSTrigger o => run d o app_label schema_editor from_state to_state
  | DeleteFTSTrigger o => run d o app_label schema_editor from_state to_state
  | CreateFTSIndex o => run d o app_label schema_editor from_state to_state
  | DeleteFTSIndex o => run d o app_label schema_editor from_state to_state
  end.

Definition any_state_forwards (op : AnyOperation) (app_label : string)
           (state : ProjectState) : ProjectState :=
  match op with
  | CreateFTSTrigger o => state_forwards o app_label state
  | DeleteFTSTrigger o => state_forwards o app_label state
  | CreateFTSIndex o => state_forwards o app_label state
  | DeleteFTSIndex o => state_forwards o app_label state
  end.

Definition model_name (op : AnyOperation) : string :=
  match op with
  | CreateFTSTrigger o => CreateFTSTriggerOperation.name o
  | DeleteFTSTrigger o => DeleteFTSTriggerOperation.name o
  | CreateFTSIndex o => CreateFTSIndexOperation.name o
  | DeleteFTSIndex o => DeleteFTSIndexOperation.name o
  end.

Definition vector_name (op : AnyOperation) : string :=
  match op with
  | CreateFTSTrigger o => CreateFTSTriggerOperation.fts_vector o
  | DeleteFTSTrigger o => DeleteFTSTriggerOperation.fts_vector o
  | CreateFTSIndex o => CreateFTSIndexOperation.fts_vector o
  | DeleteFTSIndex o => DeleteFTSIndexOperation.fts_vector o
  end.

(** ** The SQL the specification describes *)

Module Sql.

Definition column (f : Field) : string := snd (get_attname_column f).

(** [NEW.<col> <> OLD.<col>] *)
Definition change_condition (col : string) : string :=
  "NEW." ++ col ++ " <> OLD." ++ col.

(** [setweight(to_tsvector(<dictionary>, COALESCE(NEW.<col>, '')), '<rank>')] *)
Definition weighted_vector (dictionary : string) (pair : Field * string) : string :=
  "setweight(to_tsvector(" ++ dictionary ++ ", COALESCE(NEW." ++
  column (fst pair) ++ ", '')), '" ++ snd pair ++ "')".

Definition vectors (dictionary : string) (pairs : list (Field * string)) : string :=
  Py.join " || " (map (weighted_vector dictionary) pairs).

Definition conditions (pairs : list (Field * string)) : list string :=
  map (fun pair => change_condition (column (fst pair))) pairs.

(** The (field, rank) pairs of a vector field. *)
Definition pairs_of (vector_field : Field) : list (Field * string) :=
  match vector_field with
  | TSVectorField _ _ _ fields_and_ranks => fields_and_ranks
  | OtherField _ _ => []
  end.

(** [<table>_<fts_col>_update], the name of the trigger and of its function. *)
Definition trigger_name (table fts_col : string) : string :=
  table ++ "_" ++ fts_col ++ "_update".

(** The trigger function: the vector is assigned on INSERT, and on UPDATE
    under the condition [fts_fields]. *)
Definition trigger_function (table fts_col vectors fts_fields : string) : string :=
  "CREATE FUNCTION " ++ trigger_name table fts_col ++ "() RETURNS TRIGGER AS $$
BEGIN
    IF TG_OP = 'INSERT' THEN
        new." ++ fts_col ++ " = " ++ vectors ++ ";
    END IF;
    IF TG_OP = 'UPDATE' THEN
        IF " ++ fts_fields ++ " THEN
            new." ++ fts_col ++ " = " ++ vectors ++ ";
        END IF;
    END IF;
RETURN NEW;
END;
$$ LANGUAGE 'plpgsql';".

Definition trigger (table fts_col : string) : string :=
  "CREATE TRIGGER " ++ trigger_name table fts_col ++
  " BEFORE INSERT OR UPDATE ON " ++ table ++ "
FOR EACH ROW EXECUTE PROCEDURE " ++ trigger_name table fts_col ++ "()".

(** The template [sql_create_trigger] with its four names filled in. *)
Definition create_trigger (table fts_col vectors fts_fields : string) : string :=
  "
" ++ trigger_function table fts_col vectors fts_fields ++ "
" ++ trigger table fts_col.

Definition delete_trigger (table fts_col : string) : string :=
  "DROP TRIGGER " ++ trigger_name table fts_col ++ " ON " ++ table ++
  ";DROP FUNCTION " ++ trigger_name table fts_col ++ "()".

Definition create_index (table fts_col index : string) : string :=
  "CREATE INDEX " ++ table ++ "_" ++ fts_col ++ " ON " ++ table ++
  " USING " ++ index ++ "(" ++ fts_col ++ ")".

Definition delete_index (table fts_col : string) : string :=
  "DROP INDEX " ++ table ++ "_" ++ fts_col.

(** The create-trigger SQL as the specification words it: the dictionary
    argument [dictionary] in every vector, and one change condition per
    (field, rank) pair. *)
Definition create_trigger_as_specified (model : Model) (vector_field : Field)
           (dictionary : string) : string :=
  create_trigger (db_table model) (column vector_field)
    (vectors dictionary (pairs_of vector_field))
    (Py.join " OR " (conditions (pairs_of vector_field))).

(** The dictionary argument and the leading conditions, by whether the
    dictionary attribute names a field of the model. *)
Definition dictionary_argument (model : Model) (vector_dictionary : string) : string :=
  match get_field_by_name model vector_dictionary with
  | Ok (DirectField dict_field) => "NEW." ++ column dict_field ++ "::regconfig"
  | Ok (RelatedObject _) | Raise _ => "'" ++ vector_dictionary ++ "'"
  end.

Definition dictionary_conditions (model : Model) (vector_dictionary : string)
  : list string :=
  match get_field_by_name model vector_dictionary with
  | Ok (DirectField _) => [ change_condition vector_dictionary ]
  | Ok (RelatedObject _) | Raise _ => []
  end.

(** The statement each operation formats in each direction, with the
    [TSVectorField] check where the operation makes it first. *)
Definition statement (d : direction) (op : AnyOperation) (model : Model)
           (vector_field : FieldObject) : result string :=
  match op, d with
  | CreateFTSTrigger _, Forwards | DeleteFTSTrigger _, Backwards =>
      PgFtsSQL.create_fts_trigger model vector_field
  | CreateFTSTrigger _, Backwards | DeleteFTSTrigger _, Forwards =>
      PgFtsSQL.delete_trigger model vector_field
  | CreateFTSIndex o, Forwards =>
      require_TSVectorField vector_field ;;;
      PgFtsSQL.create_index model vector_field (CreateFTSIndexOperation.index o)
  | DeleteFTSIndex o, Backwards =>
      require_TSVectorField vector_field ;;;
      PgFtsSQL.create_index model vector_field (DeleteFTSIndexOperation.index o)
  | CreateFTSIndex _, Backwards | DeleteFTSIndex _, Forwards =>
      PgFtsSQL.delete_index model vector_field
  end.

(** The [dictionary] attribute of a vector field. *)
Definition dictionary_of (vector_field : Field) : string :=
  match vector_field with
  | TSVectorField _ _ vector_dictionary _ => vector_dictionary
  | OtherField _ _ => ""
  end.

(** The create-trigger SQL of a vector field of the model. *)
Definition create_trigger_for (model : Model) (vector_field : Field) : string :=
  create_trigger (db_table model) (column vector_field)
    (vectors (dictionary_argument model (dictionary_of vector_field))
       (pairs_of vector_field))
    (Py.join " OR "
       (dictionary_conditions model (dictionary_of vector_field)
          ++ conditions (pairs_of vector_field))%list).

(** The one SQL string of each operation in each direction, for a field of
    the model that passes the operation's test: creating forwards is
    dropping backwards. *)
Definition expected (d : direction) (op : AnyOperation) (model : Model)
           (vector_field : Field) : string :=
  let table := db_table model in
  let col := column vector_field in
  match op, d with
  | CreateFTSTrigger _, Forwards | DeleteFTSTrigger _, Backwards =>
      create_trigger_for model vector_field
  | CreateFTSTrigger _, Backwards | DeleteFTSTrigger _, Forwards =>
      delete_trigger table col
  | CreateFTSIndex o, Forwards =>
      create_index table col (CreateFTSIndexOperation.index o)
  | DeleteFTSIndex o, Backwards =>
      create_index table col (DeleteFTSIndexOperation.index o)
  | CreateFTSIndex _, Backwards | DeleteFTSIndex _, Forwards =>
      delete_index table col
  end.

End Sql.

(** The schema editor after one more [execute] call. *)
Definition after_execute (ed : SchemaEditor) (sql : string) : SchemaEditor :=
  {| executed := (executed ed ++ [sql])%list |}.

(** The [execute] calls between two schema-editor states. *)
Definition execute_calls (before after : SchemaEditor) (sqls : list string) : Prop :=
  executed after = (executed before ++ sqls)%list.

(** What an operation does once its statement is known: one [execute] call,
    or the exception with the schema editor untouched. *)
Definition execute_or_raise (ed : SchemaEditor) (statement : result string)
  : SchemaEditor * result unit :=
  match statement with
  | Ok sql => (after_execute ed sql, Ok tt)
  | Raise e => (ed, Raise e)
  end.

(** The lookups in [from_state] followed by the formatting of the statement. *)
Definition prepare (d : direction) (op : AnyOperation) (app_label : string)
           (from_state : ProjectState) : result string :=
  model <- get_model from_state app_label (model_name op) ;;
  vector_field <- get_field_by_name model (vector_name op) ;;
  Sql.statement d op model vector_field.

(** The number of occurrences of a character in a string. *)
Fixpoint count_char (c : ascii) (s : string) : nat :=
  match s with
  | EmptyString => 0
  | String a s' => (if Ascii.eqb a c then 1 else 0) + count_char c s'
  end.

(** ** Sample data *)

Module Sample.

Definition title : Field := OtherField "title" ("title", "title").
Definition body : Field := OtherField "body" ("body", "body").
Definition lang : Field := OtherField "lang" ("lang", "lang_code").

(** A vector field whose dictionary is the configuration name [english]. *)
Definition fts : Field :=
  TSVectorField "fts" ("fts", "fts_index") "english" [ (title, "A"); (body, "B") ].

(** A vector field whose dictionary is the model field [lang]. *)
Definition fts_lang : Field :=
  TSVectorField "fts" ("fts", "fts_index") "lang" [ (title, "A"); (body, "B") ].

Definition article : Model :=
  {| db_table := "blog_article";
     meta_fields := [ DirectField title; DirectField body; DirectField fts ] |}.

Definition article_lang : Model :=
  {| db_table := "blog_article";
     meta_fields := [ DirectField title; DirectField body; DirectField lang;
                      DirectField fts_lang ] |}.

Definition state_of (model : Model) : ProjectState :=
  {| render_get_model := fun app_label name =>
       if String.eqb app_label "blog" && String.eqb name "Article"
       then Ok model else Raise LookupError |}.

Definition state : ProjectState := state_of article.

Definition editor : SchemaEditor := {| executed := [] |}.

Definition create_index_op : CreateFTSIndexOperation.t :=
  {| CreateFTSIndexOperation.name := "Article";
     CreateFTSIndexOperation.fts_vector := "fts";
     CreateFTSIndexOperation.index := "gin" |}.

(** An index operation pointed at the text field [title]. *)
Definition create_index_on_title : CreateFTSIndexOperation.t :=
  {| CreateFTSIndexOperation.name := "Article";
     CreateFTSIndexOperation.fts_vector := "title";
     CreateFTSIndexOperation.index := "gin" |}.

(** A foreign key: attribute [language], attname and column
    [language_id]. *)
Definition language : Field :=
  OtherField "language" ("language_id", "language_id").

Definition article_with_language : Model :=
  {| db_table := "blog_article";
     meta_fields := [ DirectField title; DirectField body;
                      DirectField language ] |}.

(** The same model with the reverse relation of a [Comment.article] foreign
    key, which the name map holds under [comment]. *)
Definition article_with_comments : Model :=
  {| db_table := "blog_article";
     meta_fields := [ RelatedObject "comment"; DirectField title;
                      DirectField body; DirectField fts ] |}.

Definition state_with_comments : ProjectState := state_of article_with_comments.

(** An index operation pointed at the reverse relation [comment]. *)
Definition create_index_on_reverse : CreateFTSIndexOperation.t :=
  {| CreateFTSIndexOperation.name := "Article";
     CreateFTSIndexOperation.fts_vector := "comment";
     CreateFTSIndexOperation.index := "gin" |}.

End Sample.

(** ** Directions that need a vector field, and rolling back *)

(** Whether the operation, in this direction, creates something and so goes
    through a [TSVectorField] test: the explicit one of the index operations
    or the one inside [create_fts_trigger]. *)
Definition checks_vector (d : direction) (op : AnyOperation) : bool :=
  match op, d with
  | CreateFTSTrigger _, Forwards | DeleteFTSTrigger _, Backwards => true
  | CreateFTSIndex _, Forwards | DeleteFTSIndex _, Backwards => true
  | _, _ => false
  end.

(** An operation applied and then rolled back on the same schema editor.
    [state_forwards] leaves the project state alone, so both calls look the
    model up in the same state. *)
Definition apply_then_unapply (op : AnyOperation) (app_label : string)
           (state : ProjectState) : action unit :=
  ((fun ed => migrate Forwards op app_label ed state state) : action unit) ;;;
  ((fun ed => migrate Backwards op app_label ed state state) : action unit).

(** * Proofs *)

(** ** Strings *)

Section StringFacts.

Lemma append_nil_r (s : string) : s ++ "" = s.
Proof. induction s as [|c s IH]; simpl; [reflexivity | now rewrite IH]. Qed.

Lemma append_assoc (s1 s2 s3 : string) : (s1 ++ s2) ++ s3 = s1 ++ s2 ++ s3.
Proof. induction s1 as [|c s1 IH]; simpl; [reflexivity | now rewrite IH]. Qed.

End StringFacts.

(** ** The formatting operators on the module's templates *)

Lemma format_change_condition (col : string) :
  Py.format "NEW.{0} <> OLD.{0}" [col] [] = Ok (Sql.change_condition col).
Proof.
  transitivity (Ok ("NEW." ++ col ++ " <> OLD." ++ col ++ "")); [reflexivity|].
  now rewrite append_nil_r.
Qed.

Lemma get_vector_for_field_eq (field : Field) (weight dictionary : string) :
  PgFtsSQL._get_vector_for_field field weight dictionary
  = Ok (Sql.weighted_vector dictionary (field, weight)).
Proof. reflexivity. Qed.

Lemma delete_trigger_eq (model : Model) (field : Field) :
  PgFtsSQL.delete_trigger model field
  = Ok (Sql.delete_trigger (db_table model) (Sql.column field)).
Proof.
  unfold Sql.delete_trigger, Sql.trigger_name.
  rewrite !append_assoc. reflexivity.
Qed.

Lemma create_index_eq (model : Model) (vector_field : Field) (index : string) :
  PgFtsSQL.create_index model vector_field index
  = Ok (Sql.create_index (db_table model) (Sql.column vector_field) index).
Proof. reflexivity. Qed.

Lemma delete_index_eq (model : Model) (vector_field : Field) :
  PgFtsSQL.delete_index model vector_field
  = Ok (Sql.delete_index (db_table model) (Sql.column vector_field)).
Proof.
  transitivity (Ok ("DROP INDEX " ++ db_table model ++ "_"
                      ++ Sql.column vector_field ++ ""));
    [reflexivity|].
  now rewrite append_nil_r.
Qed.

Lemma format_create_trigger (table fts_col fts_fields vectors : string) :
  Py.format PgFtsSQL.sql_create_trigger []
    [ ("model", table); ("fts_name", fts_col);
      ("fts_fields", fts_fields); ("vectors", vectors) ]
  = Ok (Sql.create_trigger table fts_col vectors fts_fields).
Proof.
  unfold Sql.create_trigger, Sql.trigger_function, Sql.trigger, Sql.trigger_name.
  rewrite !append_assoc. reflexivity.
Qed.

(** ** [create_fts_trigger] *)

(** The loop appends one condition and one vector per pair, in order. *)
Lemma collect_eq (dictionary : string) (pairs : list (Field * string)) :
  forall fields vectors,
    PgFtsSQL.collect dictionary pairs fields vectors
    = Ok ((fields ++ Sql.conditions pairs)%list,
          (vectors ++ map (Sql.weighted_vector dictionary) pairs)%list).
Proof.
  induction pairs as [|[field rank] pairs IH]; intros fields vectors.
  - simpl. now rewrite !app_nil_r.
  - cbn [PgFtsSQL.collect].
    rewrite format_change_condition, get_vector_for_field_eq.
    cbn [bind result_monad]. rewrite IH. simpl.
    now rewrite <- !app_assoc.
Qed.

Lemma dictionary_and_fields_eq (model : Model) (vector_dictionary : string) :
  PgFtsSQL.dictionary_and_fields model vector_dictionary
  = Ok (Sql.dictionary_argument model vector_dictionary,
        Sql.dictionary_conditions model vector_dictionary).
Proof.
  unfold PgFtsSQL.dictionary_and_fields, Sql.dictionary_argument,
    Sql.dictionary_conditions.
  destruct (get_field_by_name model vector_dictionary)
    as [[dict_field|related_query_name]|e].
  - cbn [bind result_monad try_except get_attname_column_of].
    rewrite format_change_condition.
    transitivity
      (Ok ("NEW." ++ Sql.column dict_field ++ "::regconfig",
           [Sql.change_condition vector_dictionary]));
      reflexivity.
  - transitivity (Ok ("'" ++ vector_dictionary ++ "'", @nil string));
      reflexivity.
  - transitivity (Ok ("'" ++ vector_dictionary ++ "'", @nil string));
      reflexivity.
Qed.

Lemma create_fts_trigger_eq (model : Model) (name : string)
      (attname_column : string * string) (vector_dictionary : string)
      (pairs : list (Field * string)) :
  PgFtsSQL.create_fts_trigger model
    (TSVectorField name attname_column vector_dictionary pairs)
  = Ok (Sql.create_trigger (db_table model) (snd attname_column)
          (Sql.vectors (Sql.dictionary_argument model vector_dictionary) pairs)
          (Py.join " OR "
             (Sql.dictionary_conditions model vector_dictionary
                ++ Sql.conditions pairs)%list)).
Proof.
  unfold PgFtsSQL.create_fts_trigger.
  rewrite dictionary_and_fields_eq. cbn [bind result_monad fst snd].
  rewrite collect_eq. cbn [bind result_monad fst snd app get_attname_column].
  apply format_create_trigger.
Qed.

(** ** The operations *)

Lemma migrate_eq (d : direction) (op : AnyOperation) (app_label : string)
      (ed : SchemaEditor) (from_state to_state : ProjectState) :
  migrate d op app_label ed from_state to_state
  = execute_or_raise ed (prepare d op app_label from_state).
Proof.
  unfold prepare.
  destruct op as [o|o|o|o], d;
    cbn -[PgFtsSQL.create_fts_trigger PgFtsSQL.delete_trigger
          PgFtsSQL.create_index PgFtsSQL.delete_index
          get_model get_field_by_name require_TSVectorField];
    (destruct (get_model from_state app_label _) as [model|e];
     [|reflexivity]);
    (destruct (get_field_by_name model _) as [field|e]; [|reflexivity]);
    try (destruct (require_TSVectorField field) as [[]|e]; [|reflexivity]);
    match goal with
    | |- context [match ?r with Ok _ => _ | Raise _ => _ end] =>
        destruct r; reflexivity
    end.
Qed.

Lemma migrate_resolved (d : direction) (op : AnyOperation) (app_label : string)
      (ed : SchemaEditor) (from_state to_state : ProjectState)
      (model : Model) (field : FieldObject) :
  get_model from_state app_label (model_name op) = Ok model ->
  get_field_by_name model (vector_name op) = Ok field ->
  migrate d op app_label ed from_state to_state
  = execute_or_raise ed (Sql.statement d op model field).
Proof.
  intros Hmodel Hfield. rewrite migrate_eq. unfold prepare.
  rewrite Hmodel. cbn [bind result_monad]. now rewrite Hfield.
Qed.

Lemma execute_or_raise_calls (ed : SchemaEditor) (statement : result string) :
  exists sqls,
    execute_calls ed (fst (execute_or_raise ed statement)) sqls
    /\ length sqls <= 1.
Proof.
  unfold execute_calls. destruct statement as [sql|e]; simpl.
  - exists [sql]. split; [reflexivity | simpl; lia].
  - exists []. split; [now rewrite app_nil_r | simpl; lia].
Qed.

Lemma require_TSVectorField_true (field : Field) :
  isinstance_TSVectorField field = true -> require_TSVectorField field = Ok tt.
Proof. unfold require_TSVectorField. now intros ->. Qed.

Lemma require_TSVectorField_false (field : Field) :
  isinstance_TSVectorField field = false ->
  require_TSVectorField field = Raise AttributeError.
Proof. unfold require_TSVectorField. now intros ->. Qed.

(** The statement of a direction that makes no vector-field test, or of any
    direction on a [TSVectorField], is the expected one. *)
Lemma statement_expected (d : direction) (op : AnyOperation) (model : Model)
      (field : Field) :
  checks_vector d op = false \/ isinstance_TSVectorField field = true ->
  Sql.statement d op model field = Ok (Sql.expected d op model field).
Proof.
  intros Hpass.
  assert (Hvec : checks_vector d op = true ->
                 exists n ac dict pairs, field = TSVectorField n ac dict pairs).
  { intros Htest. destruct Hpass as [Hpass|Hpass]; [congruence|].
    destruct field as [n ac|n ac dict pairs]; [discriminate Hpass|].
    now exists n, ac, dict, pairs. }
  destruct op as [o|o|o|o], d; cbn [Sql.statement Sql.expected checks_vector] in *.
  - destruct (Hvec eq_refl) as (n & ac & dict & pairs & ->).
    exact (create_fts_trigger_eq model n ac dict pairs).
  - exact (delete_trigger_eq model field).
  - exact (delete_trigger_eq model field).
  - destruct (Hvec eq_refl) as (n & ac & dict & pairs & ->).
    exact (create_fts_trigger_eq model n ac dict pairs).
  - destruct (Hvec eq_refl) as (n & ac & dict & pairs & ->).
    exact (create_index_eq model (TSVectorField n ac dict pairs) _).
  - exact (delete_index_eq model field).
  - exact (delete_index_eq model field).
  - destruct (Hvec eq_refl) as (n & ac & dict & pairs & ->).
    exact (create_index_eq model (TSVectorField n ac dict pairs) _).
Qed.

Lemma statement_test_fails (d : direction) (op : AnyOperation) (model : Model)
      (field : Field) :
  checks_vector d op = true ->
  isinstance_TSVectorField field = false ->
  Sql.statement d op model field = Raise AttributeError.
Proof.
  intros Htest Hnot.
  destruct field as [n ac|n ac dict pairs]; [|discriminate Hnot].
  destruct op as [o|o|o|o], d; try discriminate Htest; reflexivity.
Qed.

(** A reverse relation is no [TSVectorField] and has no
    [get_attname_column]: no statement is formatted for it. *)
Lemma statement_related_object (d : direction) (op : AnyOperation)
      (model : Model) (related_query_name : string) :
  Sql.statement d op model (RelatedObject related_query_name)
  = Raise AttributeError.
Proof. destruct op as [o|o|o|o], d; reflexivity. Qed.

(** ** The index allow-list *)

Lemma assert_index_ok (index : string) :
  In index ["gin"; "gist"] -> assert_index ["gin"; "gist"] index = Ok tt.
Proof.
  intros [<-|[<-|[]]]; reflexivity.
Qed.

Lemma assert_index_fails (index : string) :
  ~ In index ["gin"; "gist"] ->
  assert_index ["gin"; "gist"] index
  = Raise (AssertionError ("Invalid index '" ++ index ++ "'. Options gin, gist ")).
Proof.
  intros Hnot. unfold assert_index. simpl existsb.
  destruct (String.eqb_spec index "gin") as [->|_].
  { exfalso. apply Hnot. simpl. auto. }
  destruct (String.eqb_spec index "gist") as [->|_].
  { exfalso. apply Hnot. simpl. auto. }
  reflexivity.
Qed.

(** ** Counting characters *)

Lemma count_char_append (c : ascii) (s1 s2 : string) :
  count_char c (s1 ++ s2) = count_char c s1 + count_char c s2.
Proof.
  induction s1 as [|a s1 IH]; simpl; [reflexivity|].
  rewrite IH. lia.
Qed.

(** * The claims *)

(** In the statements below [field], [vector_field] and [dict_field] stand
    for fields of the model: a lookup that answers [Ok field] found a
    field, not a reverse relation. *)
Implicit Types field vector_field dict_field : Field.

(** C1 (as amended).  For every model and every [TSVectorField],
    [create_fts_trigger] returns the template [sql_create_trigger]
    instantiated with the model's table and the vector field's column, where
    [{vectors}] is the [' || '] join of the weighted vectors of the field's
    (field, rank) pairs in order and [{fts_fields}] is the [' OR '] join of
    the change conditions of those fields, preceded by the change condition
    of the dictionary when the dictionary attribute names a field of the
    model.  The rendered SQL is the trigger function followed by the
    [BEFORE INSERT OR UPDATE ... FOR EACH ROW] trigger named
    [<table>_<fts_col>_update]. *)
Theorem create_fts_trigger_renders_template
        (model : Model) (name : string) (attname_column : string * string)
        (vector_dictionary : string) (pairs : list (Field * string)) :
  let vector_field := TSVectorField name attname_column vector_dictionary pairs in
  let vectors := Sql.vectors (Sql.dictionary_argument model vector_dictionary) pairs in
  let fts_fields :=
    Py.join " OR " (Sql.dictionary_conditions model vector_dictionary
                      ++ Sql.conditions pairs)%list in
  PgFtsSQL.create_fts_trigger model vector_field
  = Py.format PgFtsSQL.sql_create_trigger []
      [ ("model", db_table model); ("fts_name", snd attname_column);
        ("fts_fields", fts_fields); ("vectors", vectors) ]
  /\ PgFtsSQL.create_fts_trigger model vector_field
     = Ok ("
" ++ Sql.trigger_function (db_table model) (snd attname_column) vectors fts_fields
       ++ "
" ++ Sql.trigger (db_table model) (snd attname_column)).
Proof.
  cbv zeta. rewrite format_create_trigger. split; apply create_fts_trigger_eq.
Qed.

(** C1, as stated, fails on a vector field whose dictionary is a field of
    the model: whatever is taken for the dictionary argument, the SQL is not
    the template with one change condition per (field, rank) pair. *)
Lemma create_fts_trigger_not_as_specified :
  ~ exists dictionary,
      PgFtsSQL.create_fts_trigger Sample.article_lang Sample.fts_lang
      = Ok (Sql.create_trigger_as_specified
              Sample.article_lang Sample.fts_lang dictionary).
Proof.
  intros [dictionary H]. unfold Sample.fts_lang in H.
  rewrite create_fts_trigger_eq in H. injection H as H.
  apply (f_equal (count_char "<")) in H.
  match type of H with
  | ?l = _ => let n := eval vm_compute in l in change l with n in H
  end.
  unfold Sql.create_trigger_as_specified, Sql.create_trigger,
    Sql.trigger_function, Sql.trigger, Sql.trigger_name, Sql.vectors,
    Sql.weighted_vector, Sql.conditions, Sql.change_condition, Sql.column,
    Sql.pairs_of, Py.join in H.
  repeat (cbn in H; rewrite count_char_append in H).
  cbn in H. lia.
Qed.

(** C2.  Constructing a [CreateFTSIndexOperation] or a
    [DeleteFTSIndexOperation] succeeds, storing the index, exactly when the
    index is in the allow-list [('gin', 'gist')]; for any other index the
    constructor fails with an assertion error whose message names the index
    and the allowed options. *)
Theorem index_allow_list (name fts_vector index : string) :
  ((exists op, CreateFTSIndexOperation.__init__ name fts_vector index = Ok op
               /\ CreateFTSIndexOperation.index op = index)
   <-> In index ["gin"; "gist"])
  /\ ((exists op, DeleteFTSIndexOperation.__init__ name fts_vector index = Ok op
                  /\ DeleteFTSIndexOperation.index op = index)
      <-> In index ["gin"; "gist"])
  /\ (~ In index ["gin"; "gist"] ->
      CreateFTSIndexOperation.__init__ name fts_vector index
      = Raise (AssertionError
                 ("Invalid index '" ++ index ++ "'. Options gin, gist "))
      /\ DeleteFTSIndexOperation.__init__ name fts_vector index
         = Raise (AssertionError
                    ("Invalid index '" ++ index ++ "'. Options gin, gist "))).
Proof.
  assert (Hdec : In index ["gin"; "gist"] \/ ~ In index ["gin"; "gist"]).
  { destruct (in_dec string_dec index ["gin"; "gist"]); auto. }
  unfold CreateFTSIndexOperation.__init__, DeleteFTSIndexOperation.__init__,
    CreateFTSIndexOperation.INDEXS, DeleteFTSIndexOperation.INDEXS.
  repeat split.
  - intros [op [H _]]. destruct Hdec as [Hin|Hnot]; [exact Hin|].
    rewrite (assert_index_fails Hnot) in H. discriminate.
  - intros Hin. rewrite (assert_index_ok Hin). eexists. split; reflexivity.
  - intros [op [H _]]. destruct Hdec as [Hin|Hnot]; [exact Hin|].
    rewrite (assert_index_fails Hnot) in H. discriminate.
  - intros Hin. rewrite (assert_index_ok Hin). eexists. split; reflexivity.
  - rewrite (assert_index_fails H). reflexivity.
  - rewrite (assert_index_fails H). reflexivity.
Qed.

Lemma index_allow_list_witness :
  (exists op, CreateFTSIndexOperation.__init__ "Article" "fts" "gist" = Ok op
              /\ CreateFTSIndexOperation.index op = "gist")
  /\ DeleteFTSIndexOperation.__init__ "Article" "fts" "btree"
     = Raise (AssertionError "Invalid index 'btree'. Options gin, gist ").
Proof.
  split.
  - apply (proj1 (index_allow_list "Article" "fts" "gist")). simpl. auto.
  - apply (proj2 (proj2 (index_allow_list "Article" "fts" "btree"))).
    simpl. intros [H|[H|[]]]; discriminate H.
Defined.

(** C3.  Each operation is undone by its opposite: with the same model,
    vector field and index, and in every migration state, the backwards
    direction of a create operation is the forwards direction of the delete
    operation and conversely.  Where the model and the field are found, the
    create operations execute the delete-trigger and the delete-index SQL
    backwards, and the delete operations execute, for a [TSVectorField], the
    create-trigger SQL and the create-index SQL of the same index. *)
Theorem operations_reverse_each_other
        (name fts_vector index app_label : string) (ed : SchemaEditor)
        (from_state to_state : ProjectState) :
  database_backwards (CreateFTSTriggerOperation.Build_t name fts_vector)
                     app_label ed from_state to_state
  = database_forwards (DeleteFTSTriggerOperation.Build_t name fts_vector)
                      app_label ed from_state to_state
  /\ database_backwards (DeleteFTSTriggerOperation.Build_t name fts_vector)
                        app_label ed from_state to_state
     = database_forwards (CreateFTSTriggerOperation.Build_t name fts_vector)
                         app_label ed from_state to_state
  /\ database_backwards (CreateFTSIndexOperation.Build_t name fts_vector index)
                        app_label ed from_state to_state
     = database_forwards (DeleteFTSIndexOperation.Build_t name fts_vector index)
                         app_label ed from_state to_state
  /\ database_backwards (DeleteFTSIndexOperation.Build_t name fts_vector index)
                        app_label ed from_state to_state
     = database_forwards (CreateFTSIndexOperation.Build_t name fts_vector index)
                         app_label ed from_state to_state
  /\ forall model field,
      get_model from_state app_label name = Ok model ->
      get_field_by_name model fts_vector = Ok field ->
      database_backwards (CreateFTSTriggerOperation.Build_t name fts_vector)
                         app_label ed from_state to_state
      = (after_execute ed
           (Sql.delete_trigger (db_table model) (Sql.column field)), Ok tt)
      /\ database_backwards (CreateFTSIndexOperation.Build_t name fts_vector index)
                            app_label ed from_state to_state
         = (after_execute ed
              (Sql.delete_index (db_table model) (Sql.column field)), Ok tt)
      /\ (isinstance_TSVectorField field = true ->
          database_backwards (DeleteFTSIndexOperation.Build_t name fts_vector index)
                             app_label ed from_state to_state
          = (after_execute ed
               (Sql.create_index (db_table model) (Sql.column field) index),
             Ok tt)
          /\ exists sql,
              PgFtsSQL.create_fts_trigger model field = Ok sql
              /\ database_backwards
                   (DeleteFTSTriggerOperation.Build_t name fts_vector)
                   app_label ed from_state to_state
                 = (after_execute ed sql, Ok tt)).
Proof.
  repeat (split; [reflexivity|]).
  intros model field Hmodel Hfield.
  pose proof (fun d op => @migrate_resolved d op app_label ed from_state
                            to_state model field) as R.
  repeat split.
  - etransitivity; [exact (R Backwards (CreateFTSTrigger (CreateFTSTriggerOperation.Build_t name fts_vector)) Hmodel Hfield)|].
    cbn [Sql.statement]. now rewrite delete_trigger_eq.
  - etransitivity; [exact (R Backwards (CreateFTSIndex (CreateFTSIndexOperation.Build_t name fts_vector index)) Hmodel Hfield)|].
    cbn [Sql.statement]. now rewrite delete_index_eq.
  - etransitivity; [exact (R Backwards (DeleteFTSIndex (DeleteFTSIndexOperation.Build_t name fts_vector index)) Hmodel Hfield)|].
    cbn [Sql.statement]. rewrite (require_TSVectorField_true _ H).
    reflexivity.
  - destruct field as [n ac|n ac dict pairs]; [discriminate H|].
    eexists. split; [apply create_fts_trigger_eq|].
    etransitivity; [exact (R Backwards (DeleteFTSTrigger (DeleteFTSTriggerOperation.Build_t name fts_vector)) Hmodel Hfield)|].
    cbn [Sql.statement]. now rewrite create_fts_trigger_eq.
Qed.

Lemma operations_reverse_each_other_witness :
  database_backwards (CreateFTSIndexOperation.Build_t "Article" "fts" "gin")
                     "blog" Sample.editor Sample.state Sample.state
  = (after_execute Sample.editor "DROP INDEX blog_article_fts_index", Ok tt)
  /\ database_backwards (DeleteFTSIndexOperation.Build_t "Article" "fts" "gin")
                        "blog" Sample.editor Sample.state Sample.state
     = (after_execute Sample.editor
          "CREATE INDEX blog_article_fts_index ON blog_article USING gin(fts_index)",
        Ok tt).
Proof.
  pose proof
    (proj2 (proj2 (proj2 (proj2
       (operations_reverse_each_other "Article" "fts" "gin" "blog"
          Sample.editor Sample.state Sample.state))))
       Sample.article Sample.fts eq_refl eq_refl) as H.
  split.
  - exact (proj1 (proj2 H)).
  - exact (proj1 (proj2 (proj2 H) eq_refl)).
Defined.

(** C4.  For every model, vector field and index, [create_index] returns
    [CREATE INDEX <table>_<col> ON <table> USING <index>(<col>)] and
    [delete_index] returns [DROP INDEX <table>_<col>], for the model's table
    and the column of the vector field. *)
Theorem index_sql (model : Model) (vector_field : Field) (index : string) :
  let table := db_table model in
  let col := snd (get_attname_column vector_field) in
  PgFtsSQL.create_index model vector_field index
  = Ok ("CREATE INDEX " ++ table ++ "_" ++ col ++ " ON " ++ table
          ++ " USING " ++ index ++ "(" ++ col ++ ")")
  /\ PgFtsSQL.delete_index model vector_field
     = Ok ("DROP INDEX " ++ table ++ "_" ++ col).
Proof.
  cbv zeta. split.
  - apply create_index_eq.
  - apply delete_index_eq.
Qed.

(** C5.  For every model and field, [delete_trigger] returns
    [DROP TRIGGER <table>_<col>_update ON <table>;DROP FUNCTION
    <table>_<col>_update()]: it drops the trigger and the trigger function,
    under the one name [<table>_<col>_update] that the create-trigger SQL of
    the same model and vector field gives to both. *)
Theorem delete_trigger_sql (model : Model) (field : Field) :
  let table := db_table model in
  let col := snd (get_attname_column field) in
  PgFtsSQL.delete_trigger model field
  = Ok ("DROP TRIGGER " ++ table ++ "_" ++ col ++ "_update ON " ++ table
          ++ ";DROP FUNCTION " ++ table ++ "_" ++ col ++ "_update()")
  /\ PgFtsSQL.delete_trigger model field
     = Ok ("DROP TRIGGER " ++ Sql.trigger_name table col ++ " ON " ++ table
             ++ ";DROP FUNCTION " ++ Sql.trigger_name table col ++ "()")
  /\ Sql.trigger_name table col = table ++ "_" ++ col ++ "_update"
  /\ (isinstance_TSVectorField field = true ->
      exists vectors fts_fields,
        PgFtsSQL.create_fts_trigger model field
        = Ok ("
" ++ Sql.trigger_function table col vectors fts_fields ++ "
" ++ Sql.trigger table col)).
Proof.
  cbv zeta. split; [reflexivity|]. split; [apply delete_trigger_eq|].
  split; [reflexivity|].
  intros Hvec. destruct field as [n ac|n ac dict pairs]; [discriminate Hvec|].
  eexists. eexists. apply create_fts_trigger_eq.
Qed.

Lemma delete_trigger_sql_witness :
  PgFtsSQL.delete_trigger Sample.article Sample.fts
  = Ok "DROP TRIGGER blog_article_fts_index_update ON blog_article;DROP FUNCTION blog_article_fts_index_update()"
  /\ exists vectors fts_fields,
      PgFtsSQL.create_fts_trigger Sample.article Sample.fts
      = Ok ("
" ++ Sql.trigger_function "blog_article" "fts_index" vectors fts_fields ++ "
" ++ Sql.trigger "blog_article" "fts_index").
Proof.
  split.
  - exact (proj1 (delete_trigger_sql Sample.article Sample.fts)).
  - exact (proj2 (proj2 (proj2 (delete_trigger_sql Sample.article Sample.fts)))
             eq_refl).
Defined.

(** C6 (as amended).  For every operation, direction and migration state,
    the operation looks the model and the field up in [from_state].  When
    the model is found, the name resolves to a field of the model, and the
    direction either makes no [TSVectorField] test (the drop directions) or
    the field is a [TSVectorField], it formats one SQL string and calls
    [schema_editor.execute] exactly once, with that string.  When a lookup
    raises, it raises the same exception; when the name resolves to a
    reverse relation, or the test is made and fails, it raises
    [AttributeError]; in each of these cases [execute] is not called.  No
    operation issues more than one [execute] call per invocation, and
    [to_state] is not read. *)
Theorem migrate_executes_at_most_once
        (d : direction) (op : AnyOperation) (app_label : string)
        (ed : SchemaEditor) (from_state to_state : ProjectState) :
  (forall (model : Model) (field : Field),
      get_model from_state app_label (model_name op) = Ok model ->
      get_field_by_name model (vector_name op) = Ok field ->
      checks_vector d op = false \/ isinstance_TSVectorField field = true ->
      migrate d op app_label ed from_state to_state
      = (after_execute ed (Sql.expected d op model field), Ok tt)
      /\ execute_calls ed
           (fst (migrate d op app_label ed from_state to_state))
           [Sql.expected d op model field])
  /\ (forall e,
        get_model from_state app_label (model_name op) = Raise e ->
        migrate d op app_label ed from_state to_state = (ed, Raise e))
  /\ (forall (model : Model) e,
        get_model from_state app_label (model_name op) = Ok model ->
        get_field_by_name model (vector_name op) = Raise e ->
        migrate d op app_label ed from_state to_state = (ed, Raise e))
  /\ (forall (model : Model) related_query_name,
        get_model from_state app_label (model_name op) = Ok model ->
        get_field_by_name model (vector_name op)
        = Ok (RelatedObject related_query_name) ->
        migrate d op app_label ed from_state to_state
        = (ed, Raise AttributeError))
  /\ (forall (model : Model) (field : Field),
        get_model from_state app_label (model_name op) = Ok model ->
        get_field_by_name model (vector_name op) = Ok field ->
        checks_vector d op = true ->
        isinstance_TSVectorField field = false ->
        migrate d op app_label ed from_state to_state
        = (ed, Raise AttributeError))
  /\ (exists sqls,
        execute_calls ed
          (fst (migrate d op app_label ed from_state to_state)) sqls
        /\ length sqls <= 1)
  /\ (forall to_state',
        migrate d op app_label ed from_state to_state'
        = migrate d op app_label ed from_state to_state).
Proof.
  split; [|split; [|split; [|split; [|split; [|split]]]]].
  - intros model field Hmodel Hfield Hpass.
    rewrite (@migrate_resolved d op app_label ed from_state to_state
               model field Hmodel Hfield).
    rewrite (statement_expected d op model field Hpass).
    split; reflexivity.
  - intros e Hmodel. rewrite migrate_eq. unfold prepare. now rewrite Hmodel.
  - intros model e Hmodel Hfield. rewrite migrate_eq. unfold prepare.
    rewrite Hmodel. cbn [bind result_monad]. now rewrite Hfield.
  - intros model related_query_name Hmodel Hfield.
    rewrite (@migrate_resolved d op app_label ed from_state to_state
               model (RelatedObject related_query_name) Hmodel Hfield).
    now rewrite statement_related_object.
  - intros model field Hmodel Hfield Htest Hnot.
    rewrite (@migrate_resolved d op app_label ed from_state to_state
               model field Hmodel Hfield).
    now rewrite (statement_test_fails d op model field Htest Hnot).
  - rewrite migrate_eq. apply execute_or_raise_calls.
  - intros to_state'. now rewrite !migrate_eq.
Qed.

Lemma migrate_executes_at_most_once_witness :
  migrate Forwards (CreateFTSIndex Sample.create_index_op) "blog"
          Sample.editor Sample.state Sample.state
  = (after_execute Sample.editor
       "CREATE INDEX blog_article_fts_index ON blog_article USING gin(fts_index)",
     Ok tt)
  /\ migrate Backwards (CreateFTSIndex Sample.create_index_on_title) "blog"
             Sample.editor Sample.state Sample.state
     = (after_execute Sample.editor "DROP INDEX blog_article_title", Ok tt)
  /\ migrate Forwards (CreateFTSIndex Sample.create_index_op) "shop"
             Sample.editor Sample.state Sample.state
     = (Sample.editor, Raise LookupError)
  /\ migrate Backwards (CreateFTSIndex Sample.create_index_on_reverse) "blog"
             Sample.editor Sample.state_with_comments Sample.state
     = (Sample.editor, Raise AttributeError)
  /\ migrate Forwards (CreateFTSIndex Sample.create_index_on_title) "blog"
             Sample.editor Sample.state Sample.state
     = (Sample.editor, Raise AttributeError).
Proof.
  split; [|split; [|split; [|split]]].
  - exact (proj1
             (proj1 (migrate_executes_at_most_once
                       Forwards (CreateFTSIndex Sample.create_index_op) "blog"
                       Sample.editor Sample.state Sample.state)
                Sample.article Sample.fts eq_refl eq_refl
                (or_intror eq_refl))).
  - exact (proj1
             (proj1 (migrate_executes_at_most_once
                       Backwards (CreateFTSIndex Sample.create_index_on_title)
                       "blog" Sample.editor Sample.state Sample.state)
                Sample.article Sample.title eq_refl eq_refl
                (or_introl eq_refl))).
  - exact (proj1 (proj2
             (migrate_executes_at_most_once
                Forwards (CreateFTSIndex Sample.create_index_op) "shop"
                Sample.editor Sample.state Sample.state))
             LookupError eq_refl).
  - exact (proj1 (proj2 (proj2 (proj2
             (migrate_executes_at_most_once
                Backwards (CreateFTSIndex Sample.create_index_on_reverse)
                "blog" Sample.editor Sample.state_with_comments Sample.state))))
             Sample.article_with_comments "comment" eq_refl eq_refl).
  - exact (proj1 (proj2 (proj2 (proj2 (proj2
             (migrate_executes_at_most_once
                Forwards (CreateFTSIndex Sample.create_index_on_title) "blog"
                Sample.editor Sample.state Sample.state)))))
             Sample.article Sample.title eq_refl eq_refl eq_refl eq_refl).
Defined.

(** C6, as stated, fails: an index operation pointed at a field that is not
    a [TSVectorField] raises before it calls [execute], so its
    [database_forwards] makes no [execute] call at all. *)
Lemma create_index_on_text_field_executes_nothing :
  ~ exists sql,
      execute_calls Sample.editor
        (fst (database_forwards Sample.create_index_on_title "blog"
                Sample.editor Sample.state Sample.state))
        [sql].
Proof.
  intros [sql H]. vm_compute in H. discriminate H.
Qed.

(** C7 (the code departs from the claim).  [__all__] has three entries, not
    four: the second is the concatenation of two class names, which is not a
    class of the module, and neither [CreateFTSTriggerOperation] nor
    [DeleteFTSIndexOperation] is exported. *)
Theorem all_has_three_entries :
  __all__ = [ "CreateFTSIndexOperation";
              "CreateFTSTriggerOperationDeleteFTSIndexOperation";
              "DeleteFTSTriggerOperation" ]
  /\ length __all__ = 3
  /\ ~ In "CreateFTSTriggerOperation" __all__
  /\ ~ In "DeleteFTSIndexOperation" __all__
  /\ ~ In "CreateFTSTriggerOperationDeleteFTSIndexOperation" defined_classes.
Proof.
  split; [reflexivity|]. split; [reflexivity|].
  repeat split; simpl; intros H;
    repeat (destruct H as [H|H]; [discriminate H|]); exact H.
Qed.

(** C8.  For a field that is not a [TSVectorField], [create_fts_trigger]
    raises [AttributeError]; [CreateFTSIndexOperation.database_forwards]
    and [DeleteFTSIndexOperation.database_backwards] raise it before any
    [execute] call; [DeleteFTSIndexOperation.database_forwards] makes no such
    check and executes the delete-index SQL. *)
Theorem non_vector_field_is_rejected (model : Model) (field : Field) :
  isinstance_TSVectorField field = false ->
  PgFtsSQL.create_fts_trigger model field = Raise AttributeError
  /\ forall name fts_vector index app_label ed from_state to_state,
      get_model from_state app_label name = Ok model ->
      get_field_by_name model fts_vector = Ok field ->
      database_forwards (CreateFTSIndexOperation.Build_t name fts_vector index)
                        app_label ed from_state to_state
      = (ed, Raise AttributeError)
      /\ database_backwards (DeleteFTSIndexOperation.Build_t name fts_vector index)
                            app_label ed from_state to_state
         = (ed, Raise AttributeError)
      /\ database_forwards (DeleteFTSIndexOperation.Build_t name fts_vector index)
                           app_label ed from_state to_state
         = (after_execute ed
              (Sql.delete_index (db_table model) (Sql.column field)), Ok tt).
Proof.
  intros Hnot. split.
  - destruct field; [reflexivity | discriminate Hnot].
  - intros name fts_vector index app_label ed from_state to_state Hmodel Hfield.
    pose proof (fun d op => @migrate_resolved d op app_label ed from_state
                              to_state model field) as R.
    repeat split.
    + etransitivity;
        [exact (R Forwards
                  (CreateFTSIndex
                     (CreateFTSIndexOperation.Build_t name fts_vector index))
                  Hmodel Hfield)|].
      cbn [Sql.statement]. now rewrite (require_TSVectorField_false _ Hnot).
    + etransitivity;
        [exact (R Backwards
                  (DeleteFTSIndex
                     (DeleteFTSIndexOperation.Build_t name fts_vector index))
                  Hmodel Hfield)|].
      cbn [Sql.statement]. now rewrite (require_TSVectorField_false _ Hnot).
    + etransitivity;
        [exact (R Forwards
                  (DeleteFTSIndex
                     (DeleteFTSIndexOperation.Build_t name fts_vector index))
                  Hmodel Hfield)|].
      cbn [Sql.statement]. now rewrite delete_index_eq.
Qed.

Lemma non_vector_field_is_rejected_witness :
  PgFtsSQL.create_fts_trigger Sample.article Sample.title = Raise AttributeError
  /\ database_forwards (CreateFTSIndexOperation.Build_t "Article" "title" "gin")
                       "blog" Sample.editor Sample.state Sample.state
     = (Sample.editor, Raise AttributeError)
  /\ database_forwards (DeleteFTSIndexOperation.Build_t "Article" "title" "gin")
                       "blog" Sample.editor Sample.state Sample.state
     = (after_execute Sample.editor "DROP INDEX blog_article_title", Ok tt).
Proof.
  pose proof (@non_vector_field_is_rejected Sample.article Sample.title eq_refl)
    as [H1 H2].
  specialize (H2 "Article" "title" "gin" "blog" Sample.editor Sample.state
                 Sample.state eq_refl eq_refl).
  split; [exact H1|]. split; [exact (proj1 H2) | exact (proj2 (proj2 H2))].
Defined.



(** C10.  [state_forwards] of each of the four operations leaves the
    project state as it was, for every application label and state. *)
Theorem state_forwards_keeps_state (app_label : string) (state : ProjectState) :
  (forall op : CreateFTSTriggerOperation.t, state_forwards op app_label state = state)
  /\ (forall op : DeleteFTSTriggerOperation.t, state_forwards op app_label state = state)
  /\ (forall op : CreateFTSIndexOperation.t, state_forwards op app_label state = state)
  /\ (forall op : DeleteFTSIndexOperation.t, state_forwards op app_label state = state)
  /\ (forall op : AnyOperation, any_state_forwards op app_label state = state).
Proof.
  repeat split; try reflexivity.
  intros [op|op|op|op]; reflexivity.
Qed.

(** * Further properties *)

(** ** More on strings *)

Lemma length_append (s1 s2 : string) :
  String.length (s1 ++ s2) = String.length s1 + String.length s2.
Proof. induction s1 as [|c s1 IH]; simpl; [reflexivity | now rewrite IH]. Qed.

Lemma append_inv_head (p s1 s2 : string) : p ++ s1 = p ++ s2 -> s1 = s2.
Proof.
  induction p as [|c p IH]; simpl; intros H; [exact H|].
  injection H as H. auto.
Qed.

(** Two prefixes of equal length of the same string are equal. *)
Lemma append_same_length (a b x y : string) :
  String.length a = String.length b -> a ++ x = b ++ y -> a = b /\ x = y.
Proof.
  revert b. induction a as [|c a IH]; intros [|c' b] Hlen H;
    simpl in *; try discriminate.
  - auto.
  - injection H as -> H. injection Hlen as Hlen.
    destruct (IH b Hlen H) as [-> ->]. auto.
Qed.

Lemma append_inv_tail (s1 s2 t : string) : s1 ++ t = s2 ++ t -> s1 = s2.
Proof.
  intros H. apply (@append_same_length s1 s2 t t); [|exact H].
  apply (f_equal String.length) in H. rewrite !length_append in H. lia.
Qed.

Lemma change_condition_inj (a b : string) :
  Sql.change_condition a = Sql.change_condition b -> a = b.
Proof.
  unfold Sql.change_condition. intros H.
  apply append_inv_head in H.
  apply (@append_same_length a b (" <> OLD." ++ a) (" <> OLD." ++ b));
    [|exact H].
  apply (f_equal String.length) in H. rewrite !length_append in H.
  simpl in H. lia.
Qed.

(** ** Statements and outcomes *)

Lemma create_fts_trigger_cases (model : Model) (field : Field) :
  (isinstance_TSVectorField field = true
   /\ exists sql, PgFtsSQL.create_fts_trigger model field = Ok sql)
  \/ (isinstance_TSVectorField field = false
      /\ PgFtsSQL.create_fts_trigger model field = Raise AttributeError).
Proof.
  destruct field as [n ac|n ac dict pairs].
  - right. split; reflexivity.
  - left. split; [reflexivity|]. eexists. apply create_fts_trigger_eq.
Qed.

(** X1.  [describe] of the two trigger operations and of
    [CreateFTSIndexOperation] never fails and names the operation, the vector
    field and the model, each between backquotes, with the index type for the
    index operation. *)
Theorem describe_names_operation (name fts_vector index : string) :
  describe (CreateFTSTriggerOperation.Build_t name fts_vector)
  = Ok ("Create trigger `" ++ fts_vector ++ "` for model `" ++ name ++ "`")
  /\ describe (DeleteFTSTriggerOperation.Build_t name fts_vector)
     = Ok ("Delete trigger `" ++ fts_vector ++ "` for model `" ++ name ++ "`")
  /\ describe (CreateFTSIndexOperation.Build_t name fts_vector index)
     = Ok ("Create " ++ index ++ " index `" ++ fts_vector
             ++ "` for model `" ++ name ++ "`").
Proof. repeat split. Qed.

(** X2.  [describe] of [DeleteFTSIndexOperation] never fails and reads
    [Delete <index> index `<fts_vector>` for model `<name>`]; and for the
    indexes the constructors accept, the descriptions tell the four classes
    apart: operations of two different classes never have the same
    description. *)
Theorem describe_tells_classes_apart
        (name1 fts_vector1 index1 name2 fts_vector2 index2 : string) :
  In index1 ["gin"; "gist"] ->
  In index2 ["gin"; "gist"] ->
  let create_trigger := CreateFTSTriggerOperation.Build_t name1 fts_vector1 in
  let delete_trigger := DeleteFTSTriggerOperation.Build_t name2 fts_vector2 in
  let create_index := CreateFTSIndexOperation.Build_t name1 fts_vector1 index1 in
  let delete_index := DeleteFTSIndexOperation.Build_t name2 fts_vector2 index2 in
  describe delete_index
  = Ok ("Delete " ++ index2 ++ " index `" ++ fts_vector2
          ++ "` for model `" ++ name2 ++ "`")
  /\ describe create_trigger <> describe delete_trigger
  /\ describe create_trigger
     <> describe (CreateFTSIndexOperation.Build_t name2 fts_vector2 index2)
  /\ describe create_trigger <> describe delete_index
  /\ describe delete_trigger <> describe create_index
  /\ describe delete_trigger
     <> describe (DeleteFTSIndexOperation.Build_t name1 fts_vector1 index1)
  /\ describe create_index <> describe delete_index.
Proof.
  intros Hin1 Hin2. cbv zeta.
  split; [reflexivity|].
  destruct Hin1 as [<-|[<-|[]]], Hin2 as [<-|[<-|[]]];
    repeat split; intros H; vm_compute in H; discriminate H.
Qed.

Lemma describe_tells_classes_apart_witness :
  describe (DeleteFTSIndexOperation.Build_t "Article" "fts" "gist")
  = Ok "Delete gist index `fts` for model `Article`"
  /\ describe (CreateFTSTriggerOperation.Build_t "Article" "fts")
     <> describe (CreateFTSIndexOperation.Build_t "Article" "fts" "gist").
Proof.
  pose proof (@describe_tells_classes_apart
                "Article" "fts" "gin" "Article" "fts" "gist"
                (or_introl eq_refl) (or_intror (or_introl eq_refl))) as H.
  split; [exact (proj1 H) | exact (proj1 (proj2 (proj2 H)))].
Defined.

(** X3.  Once the model is found and the name resolves to a field of the
    model, an operation succeeds in a direction exactly when that direction
    makes no vector-field test (the two drop directions of each pair) or the
    field is a [TSVectorField]; where the test is made and fails, the
    operation raises [AttributeError] and nothing is executed.  When the name
    resolves to a reverse relation, the operation raises [AttributeError] in
    every direction and nothing is executed. *)
Theorem succeeds_iff_vector_where_tested
        (d : direction) (op : AnyOperation) (app_label : string)
        (ed : SchemaEditor) (from_state to_state : ProjectState)
        (model : Model) :
  get_model from_state app_label (model_name op) = Ok model ->
  (forall field,
      get_field_by_name model (vector_name op) = Ok field ->
      (snd (migrate d op app_label ed from_state to_state) = Ok tt
       <-> checks_vector d op = false \/ isinstance_TSVectorField field = true)
      /\ (checks_vector d op = true ->
          isinstance_TSVectorField field = false ->
          migrate d op app_label ed from_state to_state
          = (ed, Raise AttributeError)))
  /\ (forall related_query_name,
        get_field_by_name model (vector_name op)
        = Ok (RelatedObject related_query_name) ->
        migrate d op app_label ed from_state to_state
        = (ed, Raise AttributeError)).
Proof.
  intros Hmodel. split.
  - intros field Hfield.
    rewrite (@migrate_resolved d op app_label ed from_state to_state
               model field Hmodel Hfield).
    destruct (checks_vector d op) eqn:Htest;
      [destruct (isinstance_TSVectorField field) eqn:Hvec|].
    + rewrite (statement_expected d op model field (or_intror Hvec)).
      simpl. split; [split; auto | discriminate].
    + rewrite (statement_test_fails d op model field Htest Hvec).
      simpl. split; [|reflexivity].
      split; [discriminate | intros [H|H]; discriminate H].
    + rewrite (statement_expected d op model field (or_introl Htest)).
      simpl. split; [split; auto | discriminate].
  - intros related_query_name Hfield.
    rewrite (@migrate_resolved d op app_label ed from_state to_state
               model (RelatedObject related_query_name) Hmodel Hfield).
    now rewrite statement_related_object.
Qed.

Lemma succeeds_iff_vector_where_tested_witness :
  snd (migrate Forwards
         (DeleteFTSTrigger (DeleteFTSTriggerOperation.Build_t "Article" "title"))
         "blog" Sample.editor Sample.state Sample.state) = Ok tt
  /\ migrate Backwards
       (DeleteFTSTrigger (DeleteFTSTriggerOperation.Build_t "Article" "title"))
       "blog" Sample.editor Sample.state Sample.state
     = (Sample.editor, Raise AttributeError)
  /\ migrate Forwards
       (DeleteFTSTrigger (DeleteFTSTriggerOperation.Build_t "Article" "comment"))
       "blog" Sample.editor Sample.state_with_comments Sample.state
     = (Sample.editor, Raise AttributeError).
Proof.
  split; [|split].
  - apply (proj1 (proj1 (@succeeds_iff_vector_where_tested
             Forwards
             (DeleteFTSTrigger
                (DeleteFTSTriggerOperation.Build_t "Article" "title"))
             "blog" Sample.editor Sample.state Sample.state
             Sample.article eq_refl) Sample.title eq_refl)).
    left. reflexivity.
  - exact (proj2 (proj1 (@succeeds_iff_vector_where_tested
             Backwards
             (DeleteFTSTrigger
                (DeleteFTSTriggerOperation.Build_t "Article" "title"))
             "blog" Sample.editor Sample.state Sample.state
             Sample.article eq_refl) Sample.title eq_refl)
             eq_refl eq_refl).
  - exact (proj2 (@succeeds_iff_vector_where_tested
             Forwards
             (DeleteFTSTrigger
                (DeleteFTSTriggerOperation.Build_t "Article" "comment"))
             "blog" Sample.editor Sample.state_with_comments Sample.state
             Sample.article_with_comments eq_refl) "comment" eq_refl).
Defined.

(** ** Applying and rolling back *)

Lemma apply_then_unapply_resolved
      (op : AnyOperation) (app_label : string) (state : ProjectState)
      (ed : SchemaEditor) (model : Model) (field : Field) :
  get_model state app_label (model_name op) = Ok model ->
  get_field_by_name model (vector_name op) = Ok field ->
  apply_then_unapply op app_label state ed
  = match Sql.statement Forwards op model field with
    | Ok sql =>
        execute_or_raise (after_execute ed sql)
          (Sql.statement Backwards op model field)
    | Raise e => (ed, Raise e)
    end.
Proof.
  intros Hmodel Hfield. unfold apply_then_unapply. cbn [bind action_monad].
  rewrite (@migrate_resolved Forwards op app_label ed state state
             model field Hmodel Hfield).
  destruct (Sql.statement Forwards op model field) as [sql|e];
    cbn [execute_or_raise]; [|reflexivity].
  apply migrate_resolved; assumption.
Qed.

(** X7.  An index operation on a [TSVectorField], applied and then rolled
    back on one schema editor, succeeds with exactly two statements added in
    order: for [CreateFTSIndexOperation] the [CREATE INDEX] and then the
    [DROP INDEX] of the same [<table>_<col>]; for [DeleteFTSIndexOperation]
    the [DROP INDEX] and then the [CREATE INDEX] with the operation's
    index. *)
Theorem index_apply_then_unapply
        (name fts_vector index app_label : string) (state : ProjectState)
        (ed : SchemaEditor) (model : Model) (field : Field) :
  get_model state app_label name = Ok model ->
  get_field_by_name model fts_vector = Ok field ->
  isinstance_TSVectorField field = true ->
  let table := db_table model in
  let col := snd (get_attname_column field) in
  apply_then_unapply
    (CreateFTSIndex (CreateFTSIndexOperation.Build_t name fts_vector index))
    app_label state ed
  = ({| executed :=
          (executed ed
             ++ [ ("CREATE INDEX " ++ table ++ "_" ++ col ++ " ON " ++ table
                    ++ " USING " ++ index ++ "(" ++ col ++ ")")%string;
                  ("DROP INDEX " ++ table ++ "_" ++ col)%string ])%list |},
     Ok tt)
  /\ apply_then_unapply
       (DeleteFTSIndex (DeleteFTSIndexOperation.Build_t name fts_vector index))
       app_label state ed
     = ({| executed :=
             (executed ed
                ++ [ ("DROP INDEX " ++ table ++ "_" ++ col)%string;
                     ("CREATE INDEX " ++ table ++ "_" ++ col ++ " ON " ++ table
                       ++ " USING " ++ index ++ "(" ++ col ++ ")")%string ])%list |},
        Ok tt).
Proof.
  intros Hmodel Hfield Hvec. cbv zeta. split.
  - rewrite (@apply_then_unapply_resolved
               (CreateFTSIndex
                  (CreateFTSIndexOperation.Build_t name fts_vector index))
               app_label state ed model field Hmodel Hfield).
    cbn [Sql.statement].
    rewrite (require_TSVectorField_true _ Hvec), delete_index_eq.
    cbn [bind result_monad]. rewrite create_index_eq.
    unfold execute_or_raise, after_execute. cbn [executed].
    now rewrite <- app_assoc.
  - rewrite (@apply_then_unapply_resolved
               (DeleteFTSIndex
                  (DeleteFTSIndexOperation.Build_t name fts_vector index))
               app_label state ed model field Hmodel Hfield).
    cbn [Sql.statement].
    rewrite (require_TSVectorField_true _ Hvec), delete_index_eq.
    cbn [bind result_monad]. rewrite create_index_eq.
    unfold execute_or_raise, after_execute. cbn [executed].
    now rewrite <- app_assoc.
Qed.

Lemma index_apply_then_unapply_witness :
  apply_then_unapply (CreateFTSIndex Sample.create_index_op) "blog"
                     Sample.state Sample.editor
  = ({| executed :=
          [ "CREATE INDEX blog_article_fts_index ON blog_article USING gin(fts_index)";
            "DROP INDEX blog_article_fts_index" ] |},
     Ok tt).
Proof.
  exact (proj1 (@index_apply_then_unapply
                  "Article" "fts" "gin" "blog" Sample.state Sample.editor
                  Sample.article Sample.fts eq_refl eq_refl eq_refl)).
Defined.

(** X8.  A trigger operation on a [TSVectorField], applied and then rolled
    back on one schema editor, succeeds with exactly two statements added in
    order: the create-trigger SQL and the [DROP TRIGGER ...;DROP FUNCTION
    ...] of the same [<table>_<col>_update] for
    [CreateFTSTriggerOperation], and the two in the opposite order for
    [DeleteFTSTriggerOperation]. *)
Theorem trigger_apply_then_unapply
        (name fts_vector app_label : string) (state : ProjectState)
        (ed : SchemaEditor) (model : Model) (field : Field) :
  get_model state app_label name = Ok model ->
  get_field_by_name model fts_vector = Ok field ->
  isinstance_TSVectorField field = true ->
  exists created,
    PgFtsSQL.create_fts_trigger model field = Ok created
    /\ apply_then_unapply
         (CreateFTSTrigger (CreateFTSTriggerOperation.Build_t name fts_vector))
         app_label state ed
       = ({| executed :=
               (executed ed
                  ++ [ created;
                       Sql.delete_trigger (db_table model) (Sql.column field) ])%list |},
          Ok tt)
    /\ apply_then_unapply
         (DeleteFTSTrigger (DeleteFTSTriggerOperation.Build_t name fts_vector))
         app_label state ed
       = ({| executed :=
               (executed ed
                  ++ [ Sql.delete_trigger (db_table model) (Sql.column field);
                       created ])%list |},
          Ok tt).
Proof.
  intros Hmodel Hfield Hvec.
  destruct (create_fts_trigger_cases model field)
    as [[_ [created Hcreated]]|[Hnot _]]; [|congruence].
  exists created. split; [exact Hcreated|]. split.
  - rewrite (@apply_then_unapply_resolved
               (CreateFTSTrigger
                  (CreateFTSTriggerOperation.Build_t name fts_vector))
               app_label state ed model field Hmodel Hfield).
    cbn [Sql.statement]. rewrite Hcreated, delete_trigger_eq.
    unfold execute_or_raise, after_execute. cbn [executed].
    now rewrite <- app_assoc.
  - rewrite (@apply_then_unapply_resolved
               (DeleteFTSTrigger
                  (DeleteFTSTriggerOperation.Build_t name fts_vector))
               app_label state ed model field Hmodel Hfield).
    cbn [Sql.statement]. rewrite Hcreated, delete_trigger_eq.
    unfold execute_or_raise, after_execute. cbn [executed].
    now rewrite <- app_assoc.
Qed.

Lemma trigger_apply_then_unapply_witness :
  exists created,
    PgFtsSQL.create_fts_trigger Sample.article Sample.fts = Ok created
    /\ apply_then_unapply (CreateFTSTrigger
                             (CreateFTSTriggerOperation.Build_t "Article" "fts"))
                          "blog" Sample.state Sample.editor
       = ({| executed :=
               [ created;
                 "DROP TRIGGER blog_article_fts_index_update ON blog_article;DROP FUNCTION blog_article_fts_index_update()" ] |},
          Ok tt).
Proof.
  destruct (@trigger_apply_then_unapply
              "Article" "fts" "blog" Sample.state Sample.editor
              Sample.article Sample.fts eq_refl eq_refl eq_refl)
    as [created [Hc [H _]]].
  exists created. split; [exact Hc | exact H].
Defined.

(** X9.  Dropping makes no vector-field test but its rollback does: a
    delete operation on a field that is not a [TSVectorField], applied and
    then rolled back, executes its drop statement and then raises
    [AttributeError]; the drop statement stays executed. *)
Theorem drop_of_other_field_cannot_be_rolled_back
        (name fts_vector index app_label : string) (state : ProjectState)
        (ed : SchemaEditor) (model : Model) (field : Field) :
  get_model state app_label name = Ok model ->
  get_field_by_name model fts_vector = Ok field ->
  isinstance_TSVectorField field = false ->
  apply_then_unapply
    (DeleteFTSIndex (DeleteFTSIndexOperation.Build_t name fts_vector index))
    app_label state ed
  = (after_execute ed (Sql.delete_index (db_table model) (Sql.column field)),
     Raise AttributeError)
  /\ apply_then_unapply
       (DeleteFTSTrigger (DeleteFTSTriggerOperation.Build_t name fts_vector))
       app_label state ed
     = (after_execute ed
          (Sql.delete_trigger (db_table model) (Sql.column field)),
        Raise AttributeError).
Proof.
  intros Hmodel Hfield Hnot. split.
  - rewrite (@apply_then_unapply_resolved
               (DeleteFTSIndex
                  (DeleteFTSIndexOperation.Build_t name fts_vector index))
               app_label state ed model field Hmodel Hfield).
    cbn [Sql.statement].
    now rewrite (require_TSVectorField_false _ Hnot), delete_index_eq.
  - rewrite (@apply_then_unapply_resolved
               (DeleteFTSTrigger
                  (DeleteFTSTriggerOperation.Build_t name fts_vector))
               app_label state ed model field Hmodel Hfield).
    cbn [Sql.statement]. rewrite delete_trigger_eq.
    destruct (create_fts_trigger_cases model field)
      as [[Hv _]|[_ Hraise]]; [congruence|].
    now rewrite Hraise.
Qed.

Lemma drop_of_other_field_cannot_be_rolled_back_witness :
  apply_then_unapply
    (DeleteFTSIndex (DeleteFTSIndexOperation.Build_t "Article" "title" "gin"))
    "blog" Sample.state Sample.editor
  = (after_execute Sample.editor "DROP INDEX blog_article_title",
     Raise AttributeError).
Proof.
  exact (proj1 (@drop_of_other_field_cannot_be_rolled_back
                  "Article" "title" "gin" "blog" Sample.state Sample.editor
                  Sample.article Sample.title eq_refl eq_refl eq_refl)).
Defined.

(** ** Names and arguments in the SQL *)

(** X10.  The names built as [<table>_<col>] do not tell the table from the
    column: a column [c] of table [t_s] and a column [s_c] of table [t] get
    the same [DROP INDEX] statement, and their triggers and trigger
    functions get the same name. *)
Theorem names_do_not_separate_table_and_column
        (model1 model2 : Model) (field1 field2 : Field) (t s c : string) :
  db_table model1 = t ++ "_" ++ s ->
  snd (get_attname_column field1) = c ->
  db_table model2 = t ->
  snd (get_attname_column field2) = s ++ "_" ++ c ->
  PgFtsSQL.delete_index model1 field1 = PgFtsSQL.delete_index model2 field2
  /\ exists trigger_name,
      PgFtsSQL.delete_trigger model1 field1
      = Ok ("DROP TRIGGER " ++ trigger_name ++ " ON " ++ db_table model1
              ++ ";DROP FUNCTION " ++ trigger_name ++ "()")
      /\ PgFtsSQL.delete_trigger model2 field2
         = Ok ("DROP TRIGGER " ++ trigger_name ++ " ON " ++ db_table model2
                 ++ ";DROP FUNCTION " ++ trigger_name ++ "()").
Proof.
  intros Ht1 Hc1 Ht2 Hc2. split.
  - rewrite !delete_index_eq. unfold Sql.delete_index, Sql.column.
    rewrite Ht1, Hc1, Ht2, Hc2. now rewrite !append_assoc.
  - exists (Sql.trigger_name (db_table model2) (Sql.column field2)).
    rewrite !delete_trigger_eq. split; [|reflexivity].
    unfold Sql.delete_trigger, Sql.trigger_name, Sql.column.
    rewrite Ht1, Hc1, Ht2, Hc2. now rewrite !append_assoc.
Qed.

Lemma names_do_not_separate_table_and_column_witness :
  PgFtsSQL.delete_index
    {| db_table := "blog_article"; meta_fields := [] |}
    (OtherField "fts" ("fts", "fts"))
  = PgFtsSQL.delete_index
      {| db_table := "blog"; meta_fields := [] |}
      (OtherField "article_fts" ("article_fts", "article_fts")).
Proof.
  exact (proj1 (@names_do_not_separate_table_and_column
                  {| db_table := "blog_article"; meta_fields := [] |}
                  {| db_table := "blog"; meta_fields := [] |}
                  (OtherField "fts" ("fts", "fts"))
                  (OtherField "article_fts" ("article_fts", "article_fts"))
                  "blog" "article" "fts" eq_refl eq_refl eq_refl eq_refl)).
Defined.

Lemma create_index_inj (table col index1 index2 : string) :
  Sql.create_index table col index1 = Sql.create_index table col index2 ->
  index1 = index2.
Proof.
  unfold Sql.create_index. intros H.
  do 7 apply append_inv_head in H.
  exact (append_inv_tail _ _ _ H).
Qed.

(** X11.  The index argument matters in the create direction only: the drop
    direction of an index operation behaves the same for every index, while
    on a [TSVectorField] two create operations behave the same only if their
    indexes are equal. *)
Theorem index_argument_matters_for_create_only
        (name fts_vector index1 index2 app_label : string) (ed : SchemaEditor)
        (from_state to_state : ProjectState) :
  database_forwards (DeleteFTSIndexOperation.Build_t name fts_vector index1)
                    app_label ed from_state to_state
  = database_forwards (DeleteFTSIndexOperation.Build_t name fts_vector index2)
                      app_label ed from_state to_state
  /\ database_backwards (CreateFTSIndexOperation.Build_t name fts_vector index1)
                        app_label ed from_state to_state
     = database_backwards (CreateFTSIndexOperation.Build_t name fts_vector index2)
                          app_label ed from_state to_state
  /\ forall model field,
      get_model from_state app_label name = Ok model ->
      get_field_by_name model fts_vector = Ok field ->
      isinstance_TSVectorField field = true ->
      database_forwards (CreateFTSIndexOperation.Build_t name fts_vector index1)
                        app_label ed from_state to_state
      = database_forwards (CreateFTSIndexOperation.Build_t name fts_vector index2)
                          app_label ed from_state to_state ->
      index1 = index2.
Proof.
  split; [reflexivity|]. split; [reflexivity|].
  intros model field Hmodel Hfield Hvec H.
  pose proof (fun index =>
                @migrate_resolved Forwards
                  (CreateFTSIndex
                     (CreateFTSIndexOperation.Build_t name fts_vector index))
                  app_label ed from_state to_state model field Hmodel Hfield)
    as R.
  cbn [Sql.statement] in R.
  rewrite (require_TSVectorField_true _ Hvec) in R.
  cbn [bind result_monad CreateFTSIndexOperation.index] in R.
  change (migrate Forwards
            (CreateFTSIndex
               (CreateFTSIndexOperation.Build_t name fts_vector index1))
            app_label ed from_state to_state
          = migrate Forwards
              (CreateFTSIndex
                 (CreateFTSIndexOperation.Build_t name fts_vector index2))
              app_label ed from_state to_state) in H.
  rewrite !R, !create_index_eq in H.
  unfold execute_or_raise, after_execute in H.
  apply (f_equal (fun out => executed (fst out))) in H. cbn [fst executed] in H.
  apply app_inv_head in H.
  apply (f_equal (fun sqls => hd EmptyString sqls)) in H. cbn [hd] in H.
  exact (create_index_inj H).
Qed.

Lemma index_argument_matters_for_create_only_witness :
  database_forwards (CreateFTSIndexOperation.Build_t "Article" "fts" "gin")
                    "blog" Sample.editor Sample.state Sample.state
  <> database_forwards (CreateFTSIndexOperation.Build_t "Article" "fts" "gist")
                       "blog" Sample.editor Sample.state Sample.state.
Proof.
  intros H.
  pose proof (proj2 (proj2 (index_argument_matters_for_create_only
                              "Article" "fts" "gin" "gist" "blog"
                              Sample.editor Sample.state Sample.state))
                Sample.article Sample.fts eq_refl eq_refl eq_refl H) as E.
  discriminate E.
Defined.

(** X12.  If a [CreateFTSIndexOperation] was accepted by its constructor and
    its [database_forwards] succeeds, then the model and the field were
    found, the field is a [TSVectorField], the index is [gin] or [gist], and
    exactly the create-index statement for them was executed. *)
Theorem successful_index_creation
        (name fts_vector index app_label : string)
        (op : CreateFTSIndexOperation.t) (ed ed' : SchemaEditor)
        (from_state to_state : ProjectState) :
  CreateFTSIndexOperation.__init__ name fts_vector index = Ok op ->
  database_forwards op app_label ed from_state to_state = (ed', Ok tt) ->
  exists model field,
    get_model from_state app_label name = Ok model
    /\ get_field_by_name model fts_vector = Ok field
    /\ isinstance_TSVectorField field = true
    /\ (index = "gin" \/ index = "gist")
    /\ ed' = after_execute ed
               ("CREATE INDEX " ++ db_table model ++ "_"
                  ++ snd (get_attname_column field) ++ " ON " ++ db_table model
                  ++ " USING " ++ index ++ "("
                  ++ snd (get_attname_column field) ++ ")").
Proof.
  intros Hinit Hrun.
  assert (Hin : In index ["gin"; "gist"]).
  { destruct (in_dec string_dec index ["gin"; "gist"]) as [Hin|Hnot];
      [exact Hin|].
    unfold CreateFTSIndexOperation.__init__, CreateFTSIndexOperation.INDEXS
      in Hinit.
    rewrite (assert_index_fails Hnot) in Hinit. discriminate Hinit. }
  unfold CreateFTSIndexOperation.__init__, CreateFTSIndexOperation.INDEXS
    in Hinit.
  rewrite (assert_index_ok Hin) in Hinit. injection Hinit as <-.
  change (migrate Forwards
            (CreateFTSIndex
               (CreateFTSIndexOperation.Build_t name fts_vector index))
            app_label ed from_state to_state = (ed', Ok tt)) in Hrun.
  rewrite migrate_eq in Hrun. unfold prepare in Hrun.
  cbn [model_name vector_name CreateFTSIndexOperation.name
         CreateFTSIndexOperation.fts_vector] in Hrun.
  destruct (get_model from_state app_label name) as [model|e] eqn:Hmodel;
    [|discriminate Hrun].
  cbn [bind result_monad] in Hrun.
  destruct (get_field_by_name model fts_vector)
    as [[field|related_query_name]|e] eqn:Hfield;
    [|discriminate Hrun|discriminate Hrun].
  cbn [bind result_monad Sql.statement] in Hrun.
  exists model, field. split; [reflexivity|]. split; [exact Hfield|].
  destruct (isinstance_TSVectorField field) eqn:Hvec.
  - rewrite (require_TSVectorField_true _ Hvec) in Hrun.
    cbn [bind result_monad CreateFTSIndexOperation.index] in Hrun.
    rewrite create_index_eq in Hrun. injection Hrun as <-.
    split; [reflexivity|]. split; [|reflexivity].
    destruct Hin as [<-|[<-|[]]]; auto.
  - rewrite (require_TSVectorField_false _ Hvec) in Hrun. discriminate Hrun.
Qed.

Lemma successful_index_creation_witness :
  exists model field,
    get_model Sample.state "blog" "Article" = Ok model
    /\ get_field_by_name model "fts" = Ok field
    /\ isinstance_TSVectorField field = true
    /\ ("gin" = "gin" \/ "gin" = "gist")
    /\ after_execute Sample.editor
         "CREATE INDEX blog_article_fts_index ON blog_article USING gin(fts_index)"
       = after_execute Sample.editor
           ("CREATE INDEX " ++ db_table model ++ "_"
              ++ snd (get_attname_column field) ++ " ON " ++ db_table model
              ++ " USING " ++ "gin" ++ "("
              ++ snd (get_attname_column field) ++ ")").
Proof.
  exact (@successful_index_creation
           "Article" "fts" "gin" "blog" Sample.create_index_op
           Sample.editor
           (after_execute Sample.editor
              "CREATE INDEX blog_article_fts_index ON blog_article USING gin(fts_index)")
           Sample.state Sample.state eq_refl eq_refl).
Defined.

(** ** What [create_fts_trigger] reads *)

Lemma columns_and_ranks_decide (dictionary : string)
      (pairs pairs' : list (Field * string)) :
  map (fun p => (Sql.column (fst p), snd p)) pairs
  = map (fun p => (Sql.column (fst p), snd p)) pairs' ->
  Sql.vectors dictionary pairs = Sql.vectors dictionary pairs'
  /\ Sql.conditions pairs = Sql.conditions pairs'.
Proof.
  unfold Sql.vectors, Sql.conditions.
  revert pairs'. induction pairs as [|p pairs IH]; intros [|p' pairs'] H;
    simpl in H; try discriminate; [split; reflexivity|].
  injection H as Hcol Hrank Hrest.
  destruct (IH pairs' Hrest) as [Hv Hc].
  assert (Hvs : map (Sql.weighted_vector dictionary) pairs
                = map (Sql.weighted_vector dictionary) pairs').
  { clear - Hrest. revert pairs' Hrest.
    induction pairs as [|q pairs IH]; intros [|q' pairs'] H;
      simpl in H; try discriminate; [reflexivity|].
    injection H as Hcol Hrank Hrest. simpl.
    rewrite (IH pairs' Hrest). unfold Sql.weighted_vector.
    now rewrite Hcol, Hrank. }
  split.
  - cbn [map]. rewrite Hvs. unfold Sql.weighted_vector.
    now rewrite Hcol, Hrank.
  - cbn [map]. now rewrite Hc, Hcol.
Qed.

(** X13.  [create_fts_trigger] reads of the vector field only its column,
    its dictionary and the columns and ranks of its (field, rank) pairs:
    the attribute names, and anything else about the fields, do not reach
    the SQL. *)
Theorem create_fts_trigger_reads_columns_and_ranks
        (model : Model) (name name' : string)
        (attname_column attname_column' : string * string)
        (vector_dictionary : string) (pairs pairs' : list (Field * string)) :
  snd attname_column = snd attname_column' ->
  map (fun p => (snd (get_attname_column (fst p)), snd p)) pairs
  = map (fun p => (snd (get_attname_column (fst p)), snd p)) pairs' ->
  PgFtsSQL.create_fts_trigger model
    (TSVectorField name attname_column vector_dictionary pairs)
  = PgFtsSQL.create_fts_trigger model
      (TSVectorField name' attname_column' vector_dictionary pairs').
Proof.
  intros Hcol Hpairs. rewrite !create_fts_trigger_eq.
  destruct (columns_and_ranks_decide
              (Sql.dictionary_argument model vector_dictionary) _ _ Hpairs)
    as [-> ->].
  now rewrite Hcol.
Qed.

Lemma create_fts_trigger_reads_columns_and_ranks_witness :
  PgFtsSQL.create_fts_trigger Sample.article Sample.fts
  = PgFtsSQL.create_fts_trigger Sample.article
      (TSVectorField "search" ("search_vector", "fts_index") "english"
         [ (OtherField "headline" ("headline", "title"), "A");
           (TSVectorField "text" ("text", "body") "simple" [], "B") ]).
Proof.
  exact (@create_fts_trigger_reads_columns_and_ranks
           Sample.article "fts" "search" ("fts", "fts_index")
           ("search_vector", "fts_index") "english"
           [ (Sample.title, "A"); (Sample.body, "B") ]
           [ (OtherField "headline" ("headline", "title"), "A");
             (TSVectorField "text" ("text", "body") "simple" [], "B") ]
           eq_refl eq_refl).
Defined.



Lemma create_trigger_fts_fields_inj
      (table fts_col vectors fts_fields1 fts_fields2 : string) :
  Sql.create_trigger table fts_col vectors fts_fields1
  = Sql.create_trigger table fts_col vectors fts_fields2 ->
  fts_fields1 = fts_fields2.
Proof.
  unfold Sql.create_trigger, Sql.trigger_function, Sql.trigger_name.
  intros H. rewrite !append_assoc in H.
  repeat apply append_inv_head in H.
  exact (append_inv_tail _ _ _ H).
Qed.

Lemma join_head_inj (sep a b : string) (rest : list string) :
  Py.join sep (a :: rest) = Py.join sep (b :: rest) -> a = b.
Proof.
  unfold Py.join. destruct rest as [|c rest]; simpl; intros H; [exact H|].
  exact (append_inv_tail _ _ _ H).
Qed.

(** X15.  When the dictionary string resolves to a field of the model, the
    vectors read that field's column while the UPDATE condition names the
    dictionary string itself: the generated SQL is the one whose first
    condition watches the column the vectors read exactly when the
    dictionary string is that column's name. *)
Theorem dictionary_condition_names_the_dictionary
        (model : Model) (name : string) (attname_column : string * string)
        (vector_dictionary : string) (pairs : list (Field * string))
        (dict_field : Field) :
  get_field_by_name model vector_dictionary = Ok dict_field ->
  (PgFtsSQL.create_fts_trigger model
     (TSVectorField name attname_column vector_dictionary pairs)
   = Ok (Sql.create_trigger (db_table model) (snd attname_column)
           (Sql.vectors
              ("NEW." ++ snd (get_attname_column dict_field) ++ "::regconfig")
              pairs)
           (Py.join " OR "
              (Sql.change_condition (snd (get_attname_column dict_field))
                 :: Sql.conditions pairs)))
   <-> vector_dictionary = snd (get_attname_column dict_field)).
Proof.
  intros Hfound. rewrite create_fts_trigger_eq.
  unfold Sql.dictionary_argument, Sql.dictionary_conditions, Sql.column.
  rewrite Hfound. cbn [app]. split.
  - intros H.
    apply (f_equal (fun r => match r with Ok sql => sql | Raise _ => "" end))
      in H.
    apply create_trigger_fts_fields_inj, join_head_inj in H.
    exact (change_condition_inj H).
  - intros <-. reflexivity.
Qed.

Lemma dictionary_condition_names_the_dictionary_witness :
  PgFtsSQL.create_fts_trigger Sample.article_with_language
    (TSVectorField "fts" ("fts", "fts_index") "language_id"
       [ (Sample.title, "A") ])
  = Ok (Sql.create_trigger "blog_article" "fts_index"
          (Sql.vectors "NEW.language_id::regconfig" [ (Sample.title, "A") ])
          "NEW.language_id <> OLD.language_id OR NEW.title <> OLD.title")
  /\ PgFtsSQL.create_fts_trigger Sample.article_with_language
       (TSVectorField "fts" ("fts", "fts_index") "language"
          [ (Sample.title, "A") ])
     <> Ok (Sql.create_trigger "blog_article" "fts_index"
              (Sql.vectors "NEW.language_id::regconfig" [ (Sample.title, "A") ])
              "NEW.language_id <> OLD.language_id OR NEW.title <> OLD.title").
Proof.
  split.
  - exact (proj2 (@dictionary_condition_names_the_dictionary
                    Sample.article_with_language "fts" ("fts", "fts_index")
                    "language_id" [ (Sample.title, "A") ]
                    Sample.language eq_refl) eq_refl).
  - intros H.
    pose proof (proj1 (@dictionary_condition_names_the_dictionary
                         Sample.article_with_language "fts" ("fts", "fts_index")
                         "language" [ (Sample.title, "A") ]
                         Sample.language eq_refl) H) as E.
    discriminate E.
Defined.
